(** * ELU importer (import_elu.py): a shallow embedding and its properties

    The importer decodes a binary model file through a file object [elu]
    (reads, relative seeks, [tell]), Python's [struct.unpack], a regular
    expression that recognises skeletal names, and Blender's [bpy] data
    collections.  The embedding keeps that shape:

    - bytes are [list byte], a file is its contents and an offset;
    - Python floats are binary64 values of [SpecFloat]; a packed [f] field
      is decoded from its binary32 bit pattern and widened;
    - the decoder runs in a state-and-exception monad over the file, the
      log and the Blender collections the code consults;
    - dictionaries are [gmap]s, lists are lists. *)

From Stdlib Require Import ZArith List Bool Lia.
From Stdlib Require Import Strings.Byte Strings.Ascii Strings.String.
From Stdlib Require Import Numbers.DecimalString.
From Stdlib Require Import Floats.SpecFloat.
From stdpp Require Import base option list gmap strings.

Local Open Scope Z_scope.

(** ** Bytes and little-endian integers *)

Module Bytes.

Definition byte_val (b : byte) : Z := Z.of_N (Byte.to_N b).

(** Little-endian value of a byte string (any length). *)
Fixpoint le_uint (bs : list byte) : Z :=
  match bs with
  | [] => 0
  | b :: bs' => byte_val b + 256 * le_uint bs'
  end.

(** The slice [bs[off : off + width]] read as an unsigned integer. *)
Definition field (off width : nat) (bs : list byte) : Z :=
  le_uint (take width (drop off bs)).

(** [struct.pack('<I', n)] and friends, used to build sample buffers. *)
Fixpoint le_bytes (width : nat) (n : Z) : list byte :=
  match width with
  | O => []
  | S w =>
      match Byte.of_N (Z.to_N (n mod 256)) with
      | Some b => b :: le_bytes w (n / 256)
      | None => []
      end
  end.

Definition pack_I (n : Z) : list byte := le_bytes 4 n.
Definition pack_H (n : Z) : list byte := le_bytes 2 n.

Definition zeros (n : nat) : list byte := replicate n x00.

End Bytes.
Export Bytes.

(** ** Python floats *)

Module PyFloat.

(** A Python float is an IEEE binary64 value. *)
Definition pyfloat : Type := spec_float.

Definition prec64 : Z := 53.
Definition emax64 : Z := 1024.

(** The float [m * 2^e], rounded to binary64 (exact for the literals used). *)
Definition float_of (m e : Z) : pyfloat := binary_normalize prec64 emax64 m e false.

Definition f_0_0 : pyfloat := S754_zero false.       (* 0.0 *)
Definition f_1_0 : pyfloat := float_of 1 0.          (* 1.0 *)
Definition f_0_5 : pyfloat := float_of 1 (-1).       (* 0.5 *)
Definition f_m0_5 : pyfloat := float_of (-1) (-1).   (* -0.5 *)

(** [x - y] and [x > y] on Python floats. *)
Definition fsub (x y : pyfloat) : pyfloat := SFsub prec64 emax64 x y.
Definition fgt (x y : pyfloat) : bool := SFltb y x.

(** The value of a binary32 bit pattern ([struct]'s [f] code), widened to
    binary64; the widening is exact. *)
Definition float_of_bits32 (b : Z) : pyfloat :=
  let sign := Z.testbit b 31 in
  let e := Z.land (Z.shiftr b 23) 255 in
  let m := Z.land b 8388607 in
  if e =? 0 then
    binary_normalize prec64 emax64 (cond_Zopp sign m) (-149) sign
  else if e =? 255 then
    (if m =? 0 then S754_infinity sign else S754_nan)
  else
    binary_normalize prec64 emax64 (cond_Zopp sign (m + 8388608)) (e - 150) sign.

#[global] Instance spec_float_eq_dec : EqDecision spec_float.
Proof. solve_decision. Defined.

(** Floats are dictionary keys in the importer; a key is found again by
    [==], which on the positive floats the importer stores is equality of
    the value. *)
Definition float_code (f : spec_float) : bool + bool + (unit + bool * positive * Z) :=
  match f with
  | S754_zero s => inl (inl s)
  | S754_infinity s => inl (inr s)
  | S754_nan => inr (inl tt)
  | S754_finite s m e => inr (inr (s, m, e))
  end.

Definition float_decode (c : bool + bool + (unit + bool * positive * Z)) : spec_float :=
  match c with
  | inl (inl s) => S754_zero s
  | inl (inr s) => S754_infinity s
  | inr (inl _) => S754_nan
  | inr (inr (s, m, e)) => S754_finite s m e
  end.

#[global] Instance spec_float_countable : Countable spec_float.
Proof.
  apply (inj_countable' float_code float_decode).
  intros []; reflexivity.
Defined.

End PyFloat.
Export PyFloat.


(** ** [struct.unpack]

    Every format string of the importer is little-endian without padding
    ([<]); [unpack] raises [struct.error] unless the buffer has exactly the
    size of the format. *)

Module Struct.

Definition sized (n : nat) (bs : list byte) : bool := Nat.eqb (length bs) n.

Definition u32_at (off : nat) (bs : list byte) : Z := field off 4 bs.
Definition u16_at (off : nat) (bs : list byte) : Z := field off 2 bs.
Definition f32_at (off : nat) (bs : list byte) : pyfloat := float_of_bits32 (field off 4 bs).

(** ['<I'] *)
Definition unpack_I (bs : list byte) : option Z :=
  if sized 4 bs then Some (u32_at 0 bs) else None.

(** ['<2I'] *)
Definition unpack_2I (bs : list byte) : option (Z * Z) :=
  if sized 8 bs then Some (u32_at 0 bs, u32_at 4 bs) else None.

(** ['<3I'] *)
Definition unpack_3I (bs : list byte) : option (Z * Z * Z) :=
  if sized 12 bs then Some (u32_at 0 bs, u32_at 4 bs, u32_at 8 bs) else None.

(** ['<3H'] *)
Definition unpack_3H (bs : list byte) : option (Z * Z * Z) :=
  if sized 6 bs then Some (u16_at 0 bs, u16_at 2 bs, u16_at 4 bs) else None.

(** ['<5H'] *)
Definition unpack_5H (bs : list byte) : option (Z * Z * Z * Z * Z) :=
  if sized 10 bs
  then Some (u16_at 0 bs, u16_at 2 bs, u16_at 4 bs, u16_at 6 bs, u16_at 8 bs)
  else None.

(** ['<2HI2H'] *)
Definition unpack_2HI2H (bs : list byte) : option (Z * Z * Z * Z * Z) :=
  if sized 12 bs
  then Some (u16_at 0 bs, u16_at 2 bs, u32_at 4 bs, u16_at 8 bs, u16_at 10 bs)
  else None.

(** ['<Hf'] *)
Definition unpack_Hf (bs : list byte) : option (Z * pyfloat) :=
  if sized 6 bs then Some (u16_at 0 bs, f32_at 2 bs) else None.

(** ['<f'] *)
Definition unpack_f (bs : list byte) : option pyfloat :=
  if sized 4 bs then Some (f32_at 0 bs) else None.

(** ['<3f'] *)
Definition unpack_3f (bs : list byte) : option (pyfloat * pyfloat * pyfloat) :=
  if sized 12 bs then Some (f32_at 0 bs, f32_at 4 bs, f32_at 8 bs) else None.

(** ['<4f'] and ['<16f']: a tuple of [n] floats, kept as a list. *)
Definition unpack_nf (n : nat) (bs : list byte) : option (list pyfloat) :=
  if sized (4 * n) bs
  then Some (map (fun i => f32_at (4 * i) bs) (seq 0 n))
  else None.

End Struct.
Export Struct.

(** ** The Blender data the importer touches *)

Module Bpy.

Definition vec3 : Type := pyfloat * pyfloat * pyfloat.
Definition uv : Type := pyfloat * pyfloat.
Definition matrix : Type := list (list pyfloat).

(** A [bpy.types.Mesh] as far as [load_elu_mesh_b] fills it:
    [bip_settings], the arguments of [from_pydata] and the active UV layer
    (one triple per polygon). *)
Record Mesh := {
  mesh_name : string;
  is_bip : bool;
  raw_local_matrix : list pyfloat;
  mesh_vertices : list vec3;
  mesh_edges : list (Z * Z);
  mesh_faces : list (list Z);
  mesh_uvs : list (uv * uv * uv)
}.

(** A [bpy.types.Object]: its mesh (none for an empty), the parent looked
    up by name, the local matrix and the weights added to the vertex groups
    (one group per bone index, named by its decimal). *)
Record Object := {
  obj_name : string;
  obj_data : option Mesh;
  obj_parent : option string;
  obj_matrix_local : matrix;
  obj_vertex_groups : gmap Z (gmap pyfloat (list Z))
}.

(** A [bpy.types.Material] as [load_elu_material] fills it, with the
    textures of its slots. *)
Record Material := {
  material_name : string;
  diffuse_color : list pyfloat;
  alpha : pyfloat;
  specular_color : list pyfloat;
  specular_alpha : pyfloat;
  specular_intensity : pyfloat;
  texture_slots : list string
}.

(** [bpy.data]: meshes, materials and textures by name, objects in creation
    order, and the objects linked to the scene.  Names are kept as the
    importer passes them. *)
Record data := {
  meshes : gmap string Mesh;
  objects : list Object;
  materials : gmap string Material;
  textures : gset string;
  scene_objects : list string
}.

Definition empty_data : data :=
  {| meshes := ∅; objects := []; materials := ∅; textures := ∅;
     scene_objects := [] |}.

End Bpy.

(** ** The decoder's monad: file, log, Blender data, exceptions *)

Module Py.

Inductive exn : Type :=
| StructError          (* struct.error: buffer of the wrong size *)
| IndexError           (* list index out of range *)
| UnicodeDecodeError   (* a name with a byte above 0x7f *)
| FormatError.         (* str.format / int() on an unusable value *)

Inductive level : Type := DEBUG | INFO | WARNING | ERROR.

Inductive log_arg : Type :=
| LInt (n : Z)
| LStr (s : string)
| LBool (b : bool).

(** A [logging] call: level, format string, arguments. *)
Record log_record := {
  lvl : level;
  fmt : string;
  args : list log_arg
}.

Record world := {
  elu_data : list byte;   (* the file's contents *)
  elu_pos : Z;            (* elu.tell() *)
  logged : list log_record;
  bpy : Bpy.data
}.

Definition open_file (contents : list byte) (b : Bpy.data) : world :=
  {| elu_data := contents; elu_pos := 0; logged := []; bpy := b |}.

Inductive result (A : Type) : Type :=
| Ok (a : A) (w : world)
| Raise (e : exn).
Arguments Ok {A} a w.
Arguments Raise {A} e.

Definition M (A : Type) : Type := world -> result A.

Definition ret {A} (a : A) : M A := fun w => Ok a w.

Definition bind {A B} (c : M A) (k : A -> M B) : M B :=
  fun w => match c w with
           | Ok a w' => k a w'
           | Raise e => Raise e
           end.

Definition raise {A} (e : exn) : M A := fun _ => Raise e.

Definition lift {A} (e : exn) (o : option A) : M A :=
  match o with
  | Some a => ret a
  | None => raise e
  end.

End Py.
Export Py.

Declare Scope py_scope.
Delimit Scope py_scope with py.
Notation "x <- c ;; k" := (bind c (fun x => k))
  (at level 100, c at next level, right associativity) : py_scope.
Notation "c ;; k" := (bind c (fun _ => k))
  (at level 100, right associativity) : py_scope.
Local Open Scope py_scope.

Module File.

(** The bytes from the offset to the end of the file. *)
Definition remaining (w : world) : list byte :=
  drop (Z.to_nat (elu_pos w)) (elu_data w).

(** The same world with the offset moved by [n]. *)
Definition advance (n : Z) (w : world) : world :=
  {| elu_data := elu_data w;
     elu_pos := elu_pos w + n;
     logged := logged w;
     bpy := bpy w |}.

(** The same world with one more log record. *)
Definition add_log (r : log_record) (w : world) : world :=
  {| elu_data := elu_data w;
     elu_pos := elu_pos w;
     logged := logged w ++ [r];
     bpy := bpy w |}.

(** [elu.read(n)]: at most [n] bytes, fewer at the end of the file. *)
Definition read (n : Z) : M (list byte) := fun w =>
  let bs := take (Z.to_nat n) (remaining w) in
  Ok bs (advance (Z.of_nat (length bs)) w).

(** [elu.seek(n, os.SEEK_CUR)]: moves the offset, also past the end. *)
Definition seek_cur (n : Z) : M unit := fun w => Ok tt (advance n w).

(** [elu.tell()] *)
Definition tell : M Z := fun w => Ok (elu_pos w) w.

(** [logging.<level>(fmt, *args)] *)
Definition log (l : level) (f : string) (a : list log_arg) : M unit := fun w =>
  Ok tt (add_log {| lvl := l; fmt := f; args := a |} w).

Definition get_bpy : M Bpy.data := fun w => Ok (bpy w) w.

Definition put_bpy (b : Bpy.data) : M unit := fun w =>
  Ok tt {| elu_data := elu_data w;
           elu_pos := elu_pos w;
           logged := logged w;
           bpy := b |}.

(** [struct.unpack(fmt, elu.read(n))] *)
Definition read_unpack {A} (n : Z) (unpack : list byte -> option A) : M A :=
  bs <- read n ;; lift StructError (unpack bs).

(** [for i in range(n)] threading the variables the body assigns. *)
Fixpoint for_from {A} (n : nat) (i : Z) (body : Z -> A -> M A) (acc : A) : M A :=
  match n with
  | O => ret acc
  | S n' => acc' <- body i acc ;; for_from n' (i + 1) body acc'
  end.

Definition for_range {A} (n : Z) (body : Z -> A -> M A) (acc : A) : M A :=
  for_from (Z.to_nat n) 0 body acc.

(** A loop whose body only moves the file offset. *)
Definition repeat_ (n : Z) (body : M unit) : M unit :=
  for_range n (fun _ _ => body) tt.

End File.
Export File.

(** ** Names: decoding, the skeletal-name pattern, [elu_to_blender_name] *)

Module Names.

Local Open Scope string_scope.

(** [str(bs, encoding='ascii')]: fails on a byte above 0x7f. *)
Fixpoint decode_ascii (bs : list byte) : option string :=
  match bs with
  | [] => Some EmptyString
  | b :: bs' =>
      if (byte_val b <? 128)%Z
      then match decode_ascii bs' with
           | Some s => Some (String (ascii_of_byte b) s)
           | None => None
           end
      else None
  end.

Definition is_nul (c : ascii) : bool := (N_of_ascii c =? 0)%N.

(** [s.rstrip('\0')]: drops the trailing NUL characters, and only those. *)
Fixpoint rstrip_nul (s : string) : string :=
  match s with
  | EmptyString => EmptyString
  | String c s' =>
      match rstrip_nul s' with
      | EmptyString => if is_nul c then EmptyString else String c EmptyString
      | r => String c r
      end
  end.

(** *** A backtracking matcher for the constructs of [ELU_BIP_REGEX] *)

(** [\d] *)
Definition is_digit (c : ascii) : bool :=
  let n := N_of_ascii c in ((48 <=? n) && (n <=? 57))%N.

(** [\s] on a [str] pattern: the characters Python counts as white space. *)
Definition is_space (c : ascii) : bool :=
  let n := N_of_ascii c in
  (((9 <=? n) && (n <=? 13)) || ((28 <=? n) && (n <=? 32))
   || (n =? 133) || (n =? 160))%N.

(** [[a-zA-Z]] *)
Definition is_alpha (c : ascii) : bool :=
  let n := N_of_ascii c in
  (((97 <=? n) && (n <=? 122)) || ((65 <=? n) && (n <=? 90)))%N.

Inductive regex : Type :=
| Bol                                   (* ^ *)
| Eol                                   (* $ *)
| Lit (t : string)                      (* literal text *)
| Rep (cls : ascii -> bool) (min : nat) (* cls{min,}, greedy *)
| Alt (r1 r2 : regex)                   (* r1|r2 *)
| Opt (r : regex)                       (* r?, greedy *)
| Group (name : string) (r : regex)     (* (?P<name>r) *)
| Seq (r1 r2 : regex).

(** [match.groupdict()]: a group that did not take part is absent. *)
Abbreviation groups := (gmap string string).

(** [strip_prefix t s]: what is left of [s] after the literal [t]. *)
Fixpoint strip_prefix (t s : string) : option string :=
  match t with
  | EmptyString => Some s
  | String a t' =>
      match s with
      | String b s' => if Ascii.eqb a b then strip_prefix t' s' else None
      | EmptyString => None
      end
  end.

(** [$] without MULTILINE: at the end, or before a final newline. *)
Definition at_end (s : string) : bool :=
  match s with
  | EmptyString => true
  | String c EmptyString => (N_of_ascii c =? 10)%N
  | _ => false
  end.

Section Matcher.
Context {R : Type}.

(** Greedy repetition of one character class: the longest run first, then
    shorter ones, never fewer than [min]. [i] counts the characters before
    [s]. *)
Fixpoint rep_match (cls : ascii -> bool) (min : nat) (i : nat) (s : string)
    (k : nat -> string -> option R) : option R :=
  let stop := match min with O => k i s | S _ => None end in
  match s with
  | String c s' =>
      if cls c
      then match rep_match cls (pred min) (S i) s' k with
           | Some x => Some x
           | None => stop
           end
      else stop
  | EmptyString => stop
  end.

(** The matcher proper, in continuation-passing style: alternatives are
    tried in the order of the pattern and the first complete match wins. *)
Fixpoint rmatch (r : regex) (i : nat) (s : string) (g : groups)
    (k : nat -> string -> groups -> option R) : option R :=
  match r with
  | Bol => if Nat.eqb i 0 then k i s g else None
  | Eol => if at_end s then k i s g else None
  | Lit t =>
      match strip_prefix t s with
      | Some s' => k (i + String.length t)%nat s' g
      | None => None
      end
  | Rep cls min => rep_match cls min i s (fun i' s' => k i' s' g)
  | Alt r1 r2 =>
      match rmatch r1 i s g k with
      | Some x => Some x
      | None => rmatch r2 i s g k
      end
  | Opt r1 =>
      match rmatch r1 i s g k with
      | Some x => Some x
      | None => k i s g
      end
  | Group name r1 =>
      rmatch r1 i s g
        (fun i' s' g' => k i' s' (<[name := substring 0 (i' - i) s]> g'))
  | Seq r1 r2 =>
      rmatch r1 i s g (fun i' s' g' => rmatch r2 i' s' g' k)
  end.

End Matcher.

(** [pattern.match] at offset [i] of a string whose remainder is [s]:
    the end offset, the unmatched rest and the groups. *)
Definition match_at (r : regex) (i : nat) (s : string) : option (nat * string * groups) :=
  rmatch r i s ∅ (fun i' s' g => Some (i', s', g)).

Declare Scope regex_scope.
Delimit Scope regex_scope with re.
Infix "⋅" := Seq (at level 41, right associativity) : regex_scope.

(** [ELU_BIP_REGEX =
    r'^Bip\d{2,}\s*(?P<side>L|R)?\s*(?P<name>[a-zA-Z]+)?(?P<index>\d+)?(?P<nub>[a-zA-Z]+)?$'] *)
Definition ELU_BIP_REGEX : regex :=
  (Bol ⋅ Lit "Bip" ⋅ Rep is_digit 2 ⋅ Rep is_space 0
   ⋅ Opt (Group "side" (Alt (Lit "L") (Lit "R")))
   ⋅ Rep is_space 0
   ⋅ Opt (Group "name" (Rep is_alpha 1))
   ⋅ Opt (Group "index" (Rep is_digit 1))
   ⋅ Opt (Group "nub" (Rep is_alpha 1))
   ⋅ Eol)%re.

(** *** [str.format] on the pieces [blend] puts together *)

Inductive fseg : Type :=
| FText (t : string)                               (* literal text *)
| FField (key : string)                            (* {key} *)
| FPad (key : string) (fill : ascii) (width : nat). (* {key:fill>width} *)

(** [fill>width]: right-aligned in [width] columns, never truncated. *)
Definition pad_left (fill : ascii) (width : nat) (s : string) : string :=
  string_of_list_ascii (replicate (width - String.length s) fill) ++ s.

Definition format_seg (d : groups) (f : fseg) : option string :=
  match f with
  | FText t => Some t
  | FField key => Some (default "None" (d !! key))
  | FPad key fill width =>
      match d !! key with
      | Some v => Some (pad_left fill width v)
      | None => None
      end
  end.

Fixpoint format (f : list fseg) (d : groups) : option string :=
  match f with
  | [] => Some EmptyString
  | x :: f' =>
      match format_seg d x, format f' d with
      | Some a, Some b => Some (a ++ b)
      | _, _ => None
      end
  end.

(** [int(s)] for a string of decimal digits. *)
Definition digit_val (c : ascii) : Z := (Z.of_N (N_of_ascii c) - 48)%Z.

Fixpoint int_acc (acc : Z) (s : string) : option Z :=
  match s with
  | EmptyString => Some acc
  | String c s' => if is_digit c then int_acc (10 * acc + digit_val c)%Z s' else None
  end.

Definition int (s : string) : option Z :=
  match s with
  | EmptyString => None
  | _ => int_acc 0 s
  end.

(** *** [elu_to_blender_name] *)

(** The inner function [blend]: the replacement for one match. *)
Definition blend (m : groups) : option string :=
  let blend_format :=
    match m !! "name" with
    | Some _ => [FText "ZBip_"; FField "name"]
    | None => [FText "ZBip_Root"]
    end in
  let blend_format :=
    match m !! "nub" with
    | Some _ => (blend_format ++ [FText "_"; FField "nub"])%list
    | None => blend_format
    end in
  let blend_format :=
    match m !! "side" with
    | Some _ => (blend_format ++ [FText "."; FField "side"])%list
    | None => blend_format
    end in
  match m !! "index" with
  | Some index =>
      match int index with
      | Some n =>
          if (1 <? String.length index)%nat && (n <? 10)%Z
          then format (blend_format ++ [FText ".1"; FPad "index" "0" 3])%list m
          else if (0 <? n)%Z
          then format (blend_format ++ [FText "."; FPad "index" "0" 3])%list m
          else format blend_format m
      | None => None
      end
  | None => format blend_format m
  end.

(** [ELU_BIP_PROGRAM.subn(repl, name)]: the new string and the number of
    substitutions.  The pattern starts with [^], so a match can only start
    at offset 0 (see [no_match_after_start]); what follows the match is
    copied. *)
Definition subn (repl : groups -> option string) (name : string) : option (string * Z) :=
  match match_at ELU_BIP_REGEX 0 name with
  | Some (_, rest, m) =>
      match repl m with
      | Some new => Some (new ++ rest, 1%Z)
      | None => None
      end
  | None => Some (name, 0%Z)
  end.

Definition elu_to_blender_name (name : string) : option (string * Z) :=
  subn blend name.

End Names.
Export Names.

(** ** Constants *)

Definition ELU_MAGIC : Z := 0x0107F060.

(** [ELU_VERSIONS]: a frozenset of the tags that also carries each tag as
    an attribute. *)
Module ELU_VERSIONS.
(* GunZ: The Duel *)
Definition x11 : Z := 0x11.
Definition x5001 : Z := 0x5001.
Definition x5002 : Z := 0x5002.
Definition x5003 : Z := 0x5003.
Definition x5004 : Z := 0x5004.
Definition x5005 : Z := 0x5005.
Definition x5006 : Z := 0x5006.
Definition x5007 : Z := 0x5007.
(* GunZ: The Second Duel, RaiderZ *)
Definition x5008 : Z := 0x5008.
Definition x500A : Z := 0x500A.
Definition x500B : Z := 0x500B.
Definition x500C : Z := 0x500C.
Definition x500E : Z := 0x500E.
Definition x500F : Z := 0x500F.
Definition x5010 : Z := 0x5010.
Definition x5011 : Z := 0x5011.

Definition values : list Z :=
  [x11; x5001; x5002; x5003; x5004; x5005; x5006; x5007;
   x5008; x500A; x500B; x500C; x500E; x500F; x5010; x5011].

(** [version in ELU_VERSIONS] *)
Definition contains (version : Z) : bool := bool_decide (version ∈ values).
End ELU_VERSIONS.

Definition NAME_LENGTH : Z := 40.
Definition PATH_LENGTH : Z := 256.
Definition FACE_VERTEX_COUNT : Z := 3.
Definition BONE_INFLUENCE_COUNT : Z := 4.
Definition SMOOTH_GROUP_COUNT : nat := 32.

(** ** Helpers shared by the decoders *)

Module Common.

(** [str(raw, encoding='ascii').rstrip('\0')] *)
Definition decode_name (raw : list byte) : M string :=
  s <- lift UnicodeDecodeError (decode_ascii raw) ;;
  ret (rstrip_nul s).

(** [elu_to_blender_name(str(raw, encoding='ascii').rstrip('\0'))] *)
Definition classify (raw : list byte) : M (string * Z) :=
  s <- decode_name raw ;;
  lift FormatError (elu_to_blender_name s).

(** [t[i]] on a tuple of floats known to be long enough. *)
Definition item (t : list pyfloat) (i : nat) : pyfloat := nth i t f_0_0.

(** [d.setdefault(k, v)] as the importer spells it:
    [if k not in d: d[k] = v]. *)
Definition setdefault `{Countable K} {V} (k : K) (v : V) (d : gmap K V) : gmap K V :=
  match d !! k with
  | None => <[k := v]> d
  | Some _ => d
  end.

(** Python dictionaries of weights: key -> weight -> vertex indices. *)
Abbreviation weights K := (gmap K (gmap pyfloat (list Z))).

End Common.
Import Common.

(** ** Format A: [load_elu_mesh_a] (GunZ: The Duel) *)

Module MeshA.

Import ELU_VERSIONS.

Definition face : Type := Z * Z * Z.
Definition uv_face : Type := Bpy.uv * Bpy.uv * Bpy.uv.

(** The variables of the face loop. *)
Record face_vars := {
  faces : list face;
  uv_faces : list uv_face;
  smooth_groups : list (list Z)
}.

(** One pass of [for j in range(FACE_VERTEX_COUNT)]: a (u, v, w) record,
    kept as (u, 1.0 - v). *)
Definition read_face_uv (_ : Z) (face_uvs : list Bpy.uv) : M (list Bpy.uv) :=
  uvw <- read_unpack 12 unpack_3f ;;
  let '(u, v, w) := uvw in
  ret (face_uvs ++ [(u, fsub f_1_0 v)]).   (* flip v, drop w *)

(** [tuple(face_uvs)] / [(face_uvs[2], face_uvs[0], face_uvs[1])] *)
Definition uv_triple (rotate : bool) (face_uvs : list Bpy.uv) : option uv_face :=
  match face_uvs with
  | [a; b; c] => Some (if rotate then (c, a, b) else (a, b, c))
  | _ => None
  end.

(** The body of [for i in range(face_count)]. *)
Definition read_face (version : Z) (_ : Z) (fv : face_vars) : M face_vars :=
  vs <- read_unpack 12 unpack_3I ;;
  let '(v1, v2, v3) := vs in
  let faces' :=
    if v3 =? 0 then faces fv ++ [(v3, v1, v2)] else faces fv ++ [(v1, v2, v3)] in
  face_uvs <- for_range FACE_VERTEX_COUNT read_face_uv [] ;;
  uvs <- lift IndexError (uv_triple (v3 =? 0) face_uvs) ;;
  let uv_faces' := uv_faces fv ++ [uvs] in
  seek_cur 4 ;;                              (* material index *)
  if version >? x5001 then
    smooth_group_index <- read_unpack 4 unpack_I ;;
    match smooth_groups fv !! Z.to_nat smooth_group_index with
    | Some members =>
        ret {| faces := faces';
               uv_faces := uv_faces';
               smooth_groups :=
                 <[Z.to_nat smooth_group_index := members ++ [v1; v2; v3]]>
                   (smooth_groups fv) |}
    | None => raise IndexError
    end
  else
    ret {| faces := faces'; uv_faces := uv_faces'; smooth_groups := smooth_groups fv |}.

(** [weight_groups[bone_name][bone_weight].append(i)], creating the two
    levels on first use. *)
Definition add_weight (bone_name : string) (bone_weight : pyfloat) (i : Z)
    (weight_groups : weights string) : weights string :=
  let weight_groups := setdefault bone_name ∅ weight_groups in
  let weight_groups := alter (setdefault bone_weight []) bone_name weight_groups in
  alter (alter (fun members => members ++ [i]) bone_weight) bone_name weight_groups.

(** [for j, bone_weight in enumerate(bone_weights)]; [bone_names[j]] raises
    IndexError ([None] here) when [j] is past the end. *)
Fixpoint pair_weights (bone_names : list string) (i : Z) (j : nat)
    (bone_weights : list pyfloat) (weight_groups : weights string)
    : option (weights string) :=
  match bone_weights with
  | [] => Some weight_groups
  | bone_weight :: rest =>
      match bone_names !! j with
      | Some bone_name =>
          pair_weights bone_names i (S j) rest
            (add_weight bone_name bone_weight i weight_groups)
      | None => None
      end
  end.

(** One pass of the inner name loop: a 40-byte name, classified, kept when
    not empty. *)
Definition read_bone_name (_ : Z) (bone_names : list string) : M (list string) :=
  name <- read NAME_LENGTH ;;
  r <- classify name ;;
  let bone_name := fst r in
  if (0 <? String.length bone_name)%nat
  then ret (bone_names ++ [bone_name])
  else ret bone_names.

(** The first half of the body of [for i in range(bone_influence_count)]
    (lines 225-242): the names kept, the weights kept, the skipped fields. *)
Definition read_bone_fields : M (list string * list pyfloat) :=
  bone_names <- for_range BONE_INFLUENCE_COUNT read_bone_name [] ;;
  ws <- read_unpack 16 (unpack_nf 4) ;;
  let bone_weights := filter (fun w => fgt w f_0_0 = true) ws in
  seek_cur 16 ;;                             (* parent indices *)
  seek_cur 4 ;;                              (* weight count *)
  repeat_ BONE_INFLUENCE_COUNT (seek_cur 12) ;;  (* offset vectors *)
  ret (bone_names, bone_weights).

(** The body of [for i in range(bone_influence_count)]. *)
Definition read_bone_group (i : Z) (weight_groups : weights string)
    : M (weights string) :=
  nw <- read_bone_fields ;;
  let '(bone_names, bone_weights) := nw in
  lift IndexError (pair_weights bone_names i 0 bone_weights weight_groups).

(** What the decoding half of [load_elu_mesh_a] has in its variables when
    it reaches the construction of the Blender objects. *)
Record decoded := {
  mesh_name : string;
  is_bip : Z;
  parent_mesh_name : string;
  is_parent_bip : Z;
  world_matrix : Bpy.matrix;
  scale : Bpy.vec3;
  vertices : list Bpy.vec3;
  face_data : face_vars;
  vertex_colors : list Bpy.vec3;
  material_index : Z;
  weight_groups : weights string
}.

(** The 16 floats of a stored matrix, rows 1 and 2 exchanged. *)
Definition swapped_matrix (wm : list pyfloat) : Bpy.matrix :=
  [ [item wm 0; item wm 4; item wm 8; item wm 12];
    [item wm 2; item wm 6; item wm 10; item wm 14];
    [item wm 1; item wm 5; item wm 9; item wm 13];
    [item wm 3; item wm 7; item wm 11; item wm 15] ].

Definition read_vec3 (_ : Z) (acc : list Bpy.vec3) : M (list Bpy.vec3) :=
  p <- read_unpack 12 unpack_3f ;;
  ret (acc ++ [p]).

(** [load_elu_mesh_a], lines 112-253: everything read from the file.  The
    rotation and pivot blocks are read and their matrices are not used. *)
Definition load_elu_mesh_a_decode (version : Z) : M decoded :=
  name <- read NAME_LENGTH ;;
  parent_name <- read NAME_LENGTH ;;
  n <- classify name ;;
  p <- classify parent_name ;;
  wm <- read_unpack 64 (unpack_nf 16) ;;
  let world_matrix := swapped_matrix wm in
  scale <-
    (if version >? x11 then
       s <- read_unpack 12 unpack_3f ;;
       let '(sx, sy, sz) := s in ret (sx, sz, sy)
     else ret (f_1_0, f_1_0, f_1_0)) ;;
  (if version >? x5002 then
     read_unpack 16 (unpack_nf 4) ;;         (* rotation axis and angle *)
     read_unpack 16 (unpack_nf 4) ;;         (* pivot axis and angle *)
     read_unpack 64 (unpack_nf 16) ;;        (* pivot matrix *)
     ret tt
   else ret tt) ;;
  vertex_count <- read_unpack 4 unpack_I ;;
  vertices <- for_range vertex_count read_vec3 [] ;;
  face_count <- read_unpack 4 unpack_I ;;
  fv <- for_range face_count (read_face version)
          {| faces := []; uv_faces := [];
             smooth_groups := replicate SMOOTH_GROUP_COUNT [] |} ;;
  (if version >? x5004 then
     (* face normals and vertex normals, skipped *)
     repeat_ face_count (seek_cur 12 ;; repeat_ FACE_VERTEX_COUNT (seek_cur 12))
   else ret tt) ;;
  vertex_colors <-
    (if version >? x5004 then
       vertex_color_count <- read_unpack 4 unpack_I ;;
       for_range vertex_color_count read_vec3 []
     else ret []) ;;
  mb <- read_unpack 8 unpack_2I ;;
  let '(material_index, bone_influence_count) := mb in
  weight_groups <- for_range bone_influence_count read_bone_group ∅ ;;
  ret {| mesh_name := fst n; is_bip := snd n;
         parent_mesh_name := fst p; is_parent_bip := snd p;
         world_matrix := world_matrix; scale := scale;
         vertices := vertices; face_data := fv;
         vertex_colors := vertex_colors;
         material_index := material_index;
         weight_groups := weight_groups |}.

End MeshA.

(** ** Format B: [load_elu_mesh_b] (GunZ: The Second Duel and RaiderZ) *)

Module MeshB.

Import ELU_VERSIONS.

(** An entry of [vertex_indices]:
    (position, normal, texcoord, unknown0, unknown1). *)
Definition vertex_index : Type := Z * Z * Z * Z * Z.

(** A face [[positions], [normals], [texcoords]]. *)
Definition face : Type := list Z * list Z * list Z.

(** *** The sections of the record, in file order *)

(** Names, parent index, first unknown block and the local matrix. *)
Definition read_header (version : Z)
    : M (string * Z * string * Z * Z * Bpy.matrix) :=
  name_length <- read_unpack 4 unpack_I ;;
  name <- read name_length ;;
  parent_name_length <- read_unpack 4 unpack_I ;;
  parent_name <- read parent_name_length ;;
  n <- classify name ;;
  p <- classify parent_name ;;
  log INFO "Loading mesh: %s [%s], parent: %s [%s]"
    [LStr (fst n); LBool (negb (snd n =? 0));
     LStr (if parent_name_length >? 0 then fst p else "NIL"%string);
     LBool (negb (snd p =? 0))] ;;
  parent_mesh_index <- read_unpack 4 unpack_I ;;
  (if version =? x5008 then seek_cur 20 else seek_cur 8) ;;   (* unknown *)
  lm <- read_unpack 64 (unpack_nf 16) ;;
  let local_matrix :=
    [ [item lm 0; item lm 4; item lm 8; item lm 12];
      [item lm 1; item lm 5; item lm 9; item lm 13];
      [item lm 2; item lm 6; item lm 10; item lm 14];
      [item lm 3; item lm 7; item lm 11; item lm 15] ] in
  (if (version >=? x500E) && (version <=? x5010) then seek_cur 12
   else if version >? x5008 then seek_cur 4
   else ret tt) ;;
  ret (fst n, snd n, fst p, snd p, parent_mesh_index, local_matrix).

(** A pool of 3-float records: count, debug line, records. *)
Definition read_pool (tag : string) : M (list Bpy.vec3) :=
  count <- read_unpack 4 unpack_I ;;
  pos <- tell ;;
  log DEBUG tag [LInt pos] ;;
  for_range count MeshA.read_vec3 [].

(** The first unknown pool: records of 12 bytes, 16 after 0x500E. *)
Definition skip_unknown_pool (version : Z) : M unit :=
  unknown_count <- read_unpack 4 unpack_I ;;
  let skipped_length := if version >? x500E then 16 else 12 in
  pos <- tell ;;
  log DEBUG "loooop %x" [LInt pos] ;;
  repeat_ unknown_count (seek_cur skipped_length).

(** The second unknown count (lines 476-486): after 0x500E a count other
    than 0 is reported and replaced by 0. *)
Definition skip_second_unknown (version : Z) : M unit :=
  unknown_count <- read_unpack 4 unpack_I ;;
  unknown_count <-
    (if (version >? x500E) && negb (unknown_count =? 0) then
       pos <- tell ;;
       log WARNING "Oh no! %x" [LInt pos] ;;
       ret 0                                  (* fix? *)
     else ret unknown_count) ;;
  pos <- tell ;;
  log DEBUG "looooop %x" [LInt pos] ;;
  repeat_ unknown_count (seek_cur 12).

Definition read_texcoord (_ : Z) (acc : list Bpy.uv) : M (list Bpy.uv) :=
  uvw <- read_unpack 12 unpack_3f ;;
  let '(u, v, w) := uvw in
  ret (acc ++ [(u, fsub f_1_0 v)]).          (* flip v, drop w *)

Definition read_texcoords : M (list Bpy.uv) :=
  vertex_texcoord_count <- read_unpack 4 unpack_I ;;
  pos <- tell ;;
  log DEBUG "loooooop %x" [LInt pos] ;;
  for_range vertex_texcoord_count read_texcoord [].

(** The pool present from 0x500E on, except in 0x5010. *)
Definition skip_extra_pool (version : Z) : M unit :=
  if (version >=? x500E) && negb (version =? x5010) then
    unknown_count <- read_unpack 4 unpack_I ;;
    pos <- tell ;;
    log DEBUG "looooooop+ %x" [LInt pos] ;;
    repeat_ unknown_count (seek_cur 12)
  else ret tt.

(** The grouping table; its count is the face count up to 0x500A. *)
Definition skip_groups (version : Z) : M Z :=
  unknown_count0 <- read_unpack 4 unpack_I ;;
  pos <- tell ;;
  log DEBUG "loooooooop %x" [LInt pos] ;;
  (if version >? x500A then
     if unknown_count0 >? 0 then
       seek_cur 8 ;;
       repeat_ unknown_count0
         (unknown_count1 <- read_unpack 4 unpack_I ;;
          let skipped_length := if version <? x500E then 10 else 12 in
          repeat_ unknown_count1 (seek_cur skipped_length) ;;
          seek_cur 2)
     else ret tt
   else repeat_ unknown_count0 (seek_cur 32)) ;;
  ret unknown_count0.

Definition skip_pool_and_word : M unit :=
  unknown_count <- read_unpack 4 unpack_I ;;
  pos <- tell ;;
  log DEBUG "looooooooop %x" [LInt pos] ;;
  repeat_ unknown_count (seek_cur 12) ;;
  seek_cur 4.

(** [if i not in members: members.append(i)] *)
Definition note_member (i : Z) (members : list Z) : list Z :=
  if bool_decide (i ∈ members) then members else members ++ [i].

(** Lines 557-565: one influence of blend vertex [i]. *)
Definition add_influence (bone_index : Z) (bone_weight : pyfloat) (i : Z)
    (bone_influences : weights Z) : weights Z :=
  if fgt bone_weight f_0_0 then
    let bone_influences := setdefault bone_index ∅ bone_influences in
    let bone_influences :=
      alter (setdefault bone_weight []) bone_index bone_influences in
    alter (alter (note_member i) bone_weight) bone_index bone_influences
  else bone_influences.

Definition read_influence (i : Z) (_ : Z) (bone_influences : weights Z)
    : M (weights Z) :=
  seek_cur 2 ;;                               (* unknown *)
  bw <- read_unpack 6 unpack_Hf ;;
  let '(bone_index, bone_weight) := bw in
  ret (add_influence bone_index bone_weight i bone_influences).

Definition read_blend_vertex (i : Z) (bone_influences : weights Z)
    : M (weights Z) :=
  bone_influence_count <- read_unpack 4 unpack_I ;;
  for_range bone_influence_count (read_influence i) bone_influences.

(** The blend-vertex table (lines 540-565). *)
Definition read_blend_vertices (version : Z) : M (weights Z) :=
  blend_vertex_count <- read_unpack 4 unpack_I ;;
  blend_vertex_count <-
    (if (version <? x500E) && negb (blend_vertex_count =? 0) then
       pos <- tell ;;
       log WARNING "Oh no! %x" [LInt pos] ;;
       ret 0                                  (* fix? *)
     else ret blend_vertex_count) ;;
  pos <- tell ;;
  log DEBUG "loooooooooop %x" [LInt pos] ;;
  for_range blend_vertex_count read_blend_vertex ∅.

Definition skip_matrices (version : Z) : M unit :=
  unknown_count <- read_unpack 4 unpack_I ;;
  unknown_count <-
    (if (version <? x500E) && negb (unknown_count =? 0) then
       pos <- tell ;;
       log WARNING "Oh no! %x" [LInt pos] ;;
       ret 0                                  (* fix? *)
     else ret unknown_count) ;;
  pos <- tell ;;
  log DEBUG "looooooooooop %x" [LInt pos] ;;
  repeat_ unknown_count (seek_cur 64) ;;
  repeat_ unknown_count (seek_cur 2).

(** Lines 588-610: one entry of the indexed-vertex table. *)
Definition read_vertex_index (version : Z) (_ : Z) (vertex_indices : list vertex_index)
    : M (list vertex_index) :=
  if version <? x500E then
    t <- read_unpack 10 unpack_5H ;;
    let '(vertex_position_index, vertex_normal_index, vertex_texcoord_index,
          vertex_unknown0_index, vertex_unknown1_index) := t in
    ret (vertex_indices ++
         [(vertex_position_index, vertex_normal_index, vertex_texcoord_index,
           vertex_unknown0_index, vertex_unknown1_index)])
  else if version =? x500E then
    t <- read_unpack 12 unpack_2HI2H ;;
    let '(vertex_position_index, vertex_normal_index, vertex_unknown1_index,
          vertex_unknown0_index, vertex_texcoord_index) := t in
    ret (vertex_indices ++
         [(vertex_position_index, vertex_normal_index, vertex_texcoord_index,
           vertex_unknown0_index, vertex_unknown1_index)])
  else
    t <- read_unpack 12 unpack_2HI2H ;;
    let '(vertex_position_index, vertex_normal_index, vertex_texcoord_index,
          vertex_unknown0_index, vertex_unknown1_index) := t in
    ret (vertex_indices ++
         [(vertex_position_index, vertex_normal_index, vertex_texcoord_index,
           vertex_unknown0_index, vertex_unknown1_index)]).

Definition read_vertex_indices (version : Z) : M (list vertex_index) :=
  vertex_count <- read_unpack 4 unpack_I ;;
  pos <- tell ;;
  log DEBUG "loooooooooooop %x" [LInt pos] ;;
  for_range vertex_count (read_vertex_index version) [].

(** [face_count]: a third of the stored index count after 0x500A (the
    float division and [int] agree with the integer quotient on 32-bit
    counts), the count of the grouping table before. *)
Definition read_face_count (version : Z) (face_count : Z) : M Z :=
  (if version >? x500A then seek_cur 4 else ret tt) ;;
  if version >? x500A then
    face_index_count <- read_unpack 4 unpack_I ;;
    ret (face_index_count / 3)
  else ret face_count.

(** One corner of a face: [vertex_indices[y]], which raises IndexError
    past the end of the table. *)
Definition add_corner (vertex_indices : list vertex_index) (f : face) (y : Z)
    : option face :=
  match vertex_indices !! Z.to_nat y with
  | Some (vertex_position_index, vertex_normal_index, vertex_texcoord_index, _, _) =>
      let '(ps, ns, ts) := f in
      Some (ps ++ [vertex_position_index],
            ns ++ [vertex_normal_index],
            ts ++ [vertex_texcoord_index])
  | None => None
  end.

Definition read_face (vertex_indices : list vertex_index) (_ : Z) (faces : list face)
    : M (list face) :=
  ys <- read_unpack 6 unpack_3H ;;
  let '(y0, y1, y2) := ys in
  f <- lift IndexError
         (f0 ← add_corner vertex_indices ([], [], []) y0;
          f1 ← add_corner vertex_indices f0 y1;
          add_corner vertex_indices f1 y2) ;;
  ret (faces ++ [f]).

Definition read_faces (vertex_indices : list vertex_index) (face_count : Z)
    : M (list face) :=
  pos <- tell ;;
  log DEBUG "looooooooooooop %x" [LInt pos] ;;
  for_range face_count (read_face vertex_indices) [].

Definition skip_trailer (version : Z) : M unit :=
  unknown_count <- read_unpack 4 unpack_I ;;
  pos <- tell ;;
  log DEBUG "loooooooooooooop %x" [LInt pos] ;;
  repeat_ unknown_count (seek_cur 12) ;;
  if version >=? x500E then seek_cur 24 else ret tt.

(** *** The decoding half *)

Record decoded := {
  mesh_name : string;
  is_bip : Z;
  parent_mesh_name : string;
  is_parent_bip : Z;
  parent_mesh_index : Z;
  local_matrix : Bpy.matrix;
  vertex_positions : list Bpy.vec3;
  vertex_normals : list Bpy.vec3;
  vertex_texcoords : list Bpy.uv;
  bone_influences : weights Z;
  vertex_indices : list vertex_index;
  faces : list face
}.

(** [load_elu_mesh_b], lines 406-648. *)
Definition load_elu_mesh_b_decode (version : Z) : M decoded :=
  h <- read_header version ;;
  let '(mesh_name, is_bip, parent_mesh_name, is_parent_bip,
        parent_mesh_index, local_matrix) := h in
  vertex_positions <- read_pool "loop %x" ;;
  vertex_normals <- read_pool "looop %x" ;;
  skip_unknown_pool version ;;
  skip_second_unknown version ;;
  vertex_texcoords <- read_texcoords ;;
  skip_extra_pool version ;;
  face_count <- skip_groups version ;;
  skip_pool_and_word ;;
  bone_influences <- read_blend_vertices version ;;
  skip_matrices version ;;
  vertex_indices <- read_vertex_indices version ;;
  face_count <- read_face_count version face_count ;;
  faces <- read_faces vertex_indices face_count ;;
  skip_trailer version ;;
  ret {| mesh_name := mesh_name; is_bip := is_bip;
         parent_mesh_name := parent_mesh_name; is_parent_bip := is_parent_bip;
         parent_mesh_index := parent_mesh_index; local_matrix := local_matrix;
         vertex_positions := vertex_positions; vertex_normals := vertex_normals;
         vertex_texcoords := vertex_texcoords;
         bone_influences := bone_influences;
         vertex_indices := vertex_indices; faces := faces |}.

(** *** The construction half *)

(** The placeholder of an entry without geometry: the corners and the
    edges of a cube of side 1. *)
Definition placeholder_vertices : list Bpy.vec3 :=
  [ (f_m0_5, f_0_5, f_m0_5);
    (f_m0_5, f_0_5, f_0_5);
    (f_0_5, f_0_5, f_0_5);
    (f_0_5, f_0_5, f_m0_5);
    (f_m0_5, f_m0_5, f_m0_5);
    (f_m0_5, f_m0_5, f_0_5);
    (f_0_5, f_m0_5, f_0_5);
    (f_0_5, f_m0_5, f_m0_5) ].

Definition placeholder_edges : list (Z * Z) :=
  [ (0, 1); (1, 2); (2, 3); (3, 0);
    (4, 5); (5, 6); (6, 7); (7, 4);
    (0, 4); (1, 5); (2, 6); (3, 7) ].

(** [[x for col in m.col[:] for x in col]] *)
Definition flatten_columns (m : Bpy.matrix) : list pyfloat :=
  concat (map (fun j => map (fun row => item row j) m) [0; 1; 2; 3]%nat).

(** The UVs of polygon [fi]: [vertex_texcoords[faces[fi][2][k]]] for
    k = 0, 1, 2; IndexError past the end of the pool. *)
Definition face_uvs (vertex_texcoords : list Bpy.uv) (f : face)
    : option (Bpy.uv * Bpy.uv * Bpy.uv) :=
  let '(_, _, ts) := f in
  t0 ← ts !! 0%nat; a ← vertex_texcoords !! Z.to_nat t0;
  t1 ← ts !! 1%nat; b ← vertex_texcoords !! Z.to_nat t1;
  t2 ← ts !! 2%nat; c ← vertex_texcoords !! Z.to_nat t2;
  Some (a, b, c).

(** The mesh datablock (lines 656-715): real geometry when there are
    positions and faces, the placeholder otherwise. *)
Definition build_mesh (version : Z) (d : decoded) : M Bpy.Mesh :=
  let raw := flatten_columns (local_matrix d) in
  if (0 <? length (vertex_positions d))%nat && (0 <? length (faces d))%nat then
    uvs <-
      (if version >=? x500B
       then lift IndexError (mapM (face_uvs (vertex_texcoords d)) (faces d))
       else ret []) ;;
    ret {| Bpy.mesh_name := mesh_name d;
           Bpy.is_bip := false;
           Bpy.raw_local_matrix := raw;
           Bpy.mesh_vertices := vertex_positions d;
           Bpy.mesh_edges := [];
           Bpy.mesh_faces := map (fun f : face => fst (fst f)) (faces d);
           Bpy.mesh_uvs := uvs |}
  else
    ret {| Bpy.mesh_name := mesh_name d;
           Bpy.is_bip := true;
           Bpy.raw_local_matrix := raw;
           Bpy.mesh_vertices := placeholder_vertices;
           Bpy.mesh_edges := placeholder_edges;
           Bpy.mesh_faces := [];
           Bpy.mesh_uvs := [] |}.

Definition has_object (name : string) (objs : list Bpy.Object) : bool :=
  existsb (fun o => bool_decide (Bpy.obj_name o = name)) objs.

(** [load_elu_mesh_b], lines 650-744: the mesh and its object, or nothing
    when a mesh of that name exists already. *)
Definition load_elu_mesh_b_build (version : Z) (d : decoded)
    : M (option Bpy.Object) :=
  b <- get_bpy ;;
  match Bpy.meshes b !! mesh_name d with
  | None =>
      mesh <- build_mesh version d ;;
      let new_object (parent : option string) :=
        {| Bpy.obj_name := mesh_name d;
           Bpy.obj_data := Some mesh;
           Bpy.obj_parent := parent;
           Bpy.obj_matrix_local := local_matrix d;
           Bpy.obj_vertex_groups :=
             if version >? x500B then bone_influences d else ∅ |} in
      let parent :=
        if negb (parent_mesh_index d =? 0xFFFFFFFF)
           && has_object (parent_mesh_name d) (Bpy.objects b ++ [new_object None])
        then Some (parent_mesh_name d) else None in
      let mesh_object := new_object parent in
      put_bpy {| Bpy.meshes := <[mesh_name d := mesh]> (Bpy.meshes b);
                 Bpy.objects := Bpy.objects b ++ [mesh_object];
                 Bpy.materials := Bpy.materials b;
                 Bpy.textures := Bpy.textures b;
                 Bpy.scene_objects := Bpy.scene_objects b ++ [mesh_name d] |} ;;
      ret (Some mesh_object)
  | Some _ =>
      log ERROR "WTF!" [] ;;
      ret None
  end.

Definition load_elu_mesh_b (version : Z) : M (option Bpy.Object) :=
  d <- load_elu_mesh_b_decode version ;;
  load_elu_mesh_b_build version d.

End MeshB.

(** ** Materials and textures (GunZ: The Duel) *)

Module Materials.

Import ELU_VERSIONS.

(** ["{0:03}".format(n)] for a count read from the file. *)
Definition format_03 (n : Z) : string :=
  pad_left "0" 3 (NilZero.string_of_uint (N.to_uint (Z.to_N n))).

(** [load_elu_material]: the material named after the first index, created
    on first use.  The shading switches it sets are constants and are left
    out. *)
Definition load_elu_material (version : Z) : M string :=
  idx <- read_unpack 8 unpack_2I ;;
  let '(index0, index1) := idx in
  ambient_color <- read_unpack 16 (unpack_nf 4) ;;
  diffuse_color <- read_unpack 16 (unpack_nf 4) ;;
  specular_color <- read_unpack 16 (unpack_nf 4) ;;
  specular_power <- read_unpack 4 unpack_f ;;
  seek_cur 4 ;;                               (* unknown *)
  let material_name := ("z_material." ++ format_03 index0)%string in
  b <- get_bpy ;;
  match Bpy.materials b !! material_name with
  | None =>
      put_bpy {| Bpy.meshes := Bpy.meshes b;
                 Bpy.objects := Bpy.objects b;
                 Bpy.materials :=
                   <[material_name :=
                       {| Bpy.material_name := material_name;
                          Bpy.diffuse_color := take 3 diffuse_color;
                          Bpy.alpha := item diffuse_color 3;
                          Bpy.specular_color := take 3 specular_color;
                          Bpy.specular_alpha := item specular_color 3;
                          Bpy.specular_intensity := specular_power;
                          Bpy.texture_slots := [] |}]> (Bpy.materials b);
                 Bpy.textures := Bpy.textures b;
                 Bpy.scene_objects := Bpy.scene_objects b |} ;;
      ret material_name
  | Some _ => ret material_name
  end.

Section Texture.

(** [os.path.splitext], a function of the platform's path module. *)
Variable splitext : string -> string * string.

(** The length of each of the two names of a texture record. *)
Definition texture_name_length (version : Z) : Z :=
  if version <? x5006 then NAME_LENGTH else PATH_LENGTH.

(** [load_elu_texture]: the texture named after the first name without its
    extension, created on first use.  Finding and loading the image file is
    left out. *)
Definition load_elu_texture (version : Z) : M string :=
  names <-
    (if version <? x5006 then
       name0 <- read NAME_LENGTH ;;
       name1 <- read NAME_LENGTH ;;
       ret (name0, name1)
     else
       name0 <- read PATH_LENGTH ;;
       name1 <- read PATH_LENGTH ;;
       ret (name0, name1)) ;;
  let '(name0, name1) := names in
  image_name0 <- decode_name name0 ;;
  image_name1 <- decode_name name1 ;;
  let '(texture_name0, texture_ext0) := splitext image_name0 in
  let '(texture_name1, texture_ext1) := splitext image_name1 in
  b <- get_bpy ;;
  if bool_decide (texture_name0 ∈ Bpy.textures b) then ret texture_name0
  else
    put_bpy {| Bpy.meshes := Bpy.meshes b;
               Bpy.objects := Bpy.objects b;
               Bpy.materials := Bpy.materials b;
               Bpy.textures := {[ texture_name0 ]} ∪ Bpy.textures b;
               Bpy.scene_objects := Bpy.scene_objects b |} ;;
    ret texture_name0.

Definition add_slot (texture : string) (m : Bpy.Material) : Bpy.Material :=
  {| Bpy.material_name := Bpy.material_name m;
     Bpy.diffuse_color := Bpy.diffuse_color m;
     Bpy.alpha := Bpy.alpha m;
     Bpy.specular_color := Bpy.specular_color m;
     Bpy.specular_alpha := Bpy.specular_alpha m;
     Bpy.specular_intensity := Bpy.specular_intensity m;
     Bpy.texture_slots := Bpy.texture_slots m ++ [texture] |}.

(** [load_elu_textured_material] *)
Definition load_elu_textured_material (version : Z) : M unit :=
  material <- load_elu_material version ;;
  texture <- load_elu_texture version ;;
  (if version >? x5001 then read_unpack 4 unpack_I ;; ret tt else ret tt) ;;  (* two_sided *)
  (if version >? x5003 then read_unpack 4 unpack_I ;; ret tt else ret tt) ;;  (* additive *)
  (if version >? x5006 then read_unpack 4 unpack_I ;; ret tt else ret tt) ;;  (* alpha_percent *)
  b <- get_bpy ;;
  put_bpy {| Bpy.meshes := Bpy.meshes b;
             Bpy.objects := Bpy.objects b;
             Bpy.materials := alter (add_slot texture) material (Bpy.materials b);
             Bpy.textures := Bpy.textures b;
             Bpy.scene_objects := Bpy.scene_objects b |}.

End Texture.

End Materials.

(** ** The driver: [load_from_path] *)

Module Driver.

Inductive status : Type := FINISHED | CANCELLED.

Section LoadFromPath.

(** [load_elu(elu, version)]: the materials, the meshes and the armature.
    Its construction of Blender objects goes through [mathutils] and
    [bpy.ops]; the driver is stated for any behaviour of it. *)
Variable load_elu : Z -> M unit.

(** [load_from_path(path)], run on the opened file. *)
Definition load_from_path (path : string) : M status :=
  log INFO "Opening file: %s" [LStr path] ;;
  mv <- read_unpack 8 unpack_2I ;;
  let '(magic, version) := mv in
  if negb (magic =? ELU_MAGIC) || negb (ELU_VERSIONS.contains version) then
    log ERROR "File not supported" [] ;;
    ret CANCELLED
  else
    log DEBUG "Version: %x" [LInt version] ;;
    load_elu version ;;
    ret FINISHED.

End LoadFromPath.

End Driver.

(** ** Sample buffers *)

Module Samples.

(** [struct.pack('<f', x)] from the bit pattern of [x]. *)
Definition pack_f (bits : Z) : list byte := le_bytes 4 bits.

Definition bits_0_0 : Z := 0.               (* 0.0 *)
Definition bits_0_25 : Z := 0x3E800000.     (* 0.25 *)
Definition bits_0_5 : Z := 0x3F000000.      (* 0.5 *)
Definition bits_0_6 : Z := 0x3F19999A.      (* 0.6 *)
Definition bits_1_0 : Z := 0x3F800000.      (* 1.0 *)

(** A blend-vertex table of one vertex with three influences: bones 2 and
    5 at weight 0.0, bone 7 at weight 0.6. *)
Definition blend_table : list byte :=
  pack_I 1 ++
  pack_I 3 ++
  pack_H 0 ++ pack_H 2 ++ pack_f bits_0_0 ++
  pack_H 0 ++ pack_H 5 ++ pack_f bits_0_0 ++
  pack_H 0 ++ pack_H 7 ++ pack_f bits_0_6.

(** A name in a field of [n] bytes, padded with NUL. *)
Definition name_field (n : nat) (s : string) : list byte :=
  let raw := map byte_of_ascii (list_ascii_of_string s) in
  raw ++ zeros (n - length raw).




(** A 4x4 identity matrix as 16 packed floats. *)
Definition identity_matrix : list byte :=
  pack_f bits_1_0 ++ zeros 12 ++
  zeros 4 ++ pack_f bits_1_0 ++ zeros 8 ++
  zeros 8 ++ pack_f bits_1_0 ++ zeros 4 ++
  zeros 12 ++ pack_f bits_1_0.


(** A Format B entry of version 0x5011 named "Tri": one triangle. *)
Definition triangle_entry : list byte :=
  pack_I 3 ++ name_field 3 "Tri" ++
  pack_I 0 ++
  pack_I 0xFFFFFFFF ++
  zeros 8 ++ identity_matrix ++ zeros 4 ++
  pack_I 3 ++                              (* positions *)
    (zeros 4 ++ zeros 4 ++ zeros 4) ++
    (pack_f bits_1_0 ++ zeros 4 ++ zeros 4) ++
    (zeros 4 ++ pack_f bits_1_0 ++ zeros 4) ++
  pack_I 1 ++                              (* normals *)
    (zeros 4 ++ zeros 4 ++ pack_f bits_1_0) ++
  pack_I 0 ++ pack_I 0 ++
  pack_I 3 ++                              (* texcoords *)
    (zeros 4 ++ zeros 4 ++ zeros 4) ++
    (pack_f bits_1_0 ++ zeros 4 ++ zeros 4) ++
    (zeros 4 ++ pack_f bits_0_25 ++ zeros 4) ++
  pack_I 0 ++
  pack_I 0 ++
  pack_I 0 ++ zeros 4 ++
  pack_I 0 ++
  pack_I 0 ++
  pack_I 3 ++                              (* indexed vertices *)
    (pack_H 0 ++ pack_H 0 ++ pack_I 0 ++ pack_H 0 ++ pack_H 0) ++
    (pack_H 1 ++ pack_H 0 ++ pack_I 1 ++ pack_H 0 ++ pack_H 0) ++
    (pack_H 2 ++ pack_H 0 ++ pack_I 2 ++ pack_H 0 ++ pack_H 0) ++
  zeros 4 ++ pack_I 3 ++                   (* face indices *)
    (pack_H 0 ++ pack_H 1 ++ pack_H 2) ++
  pack_I 0 ++ zeros 24.

(** The joint above with a second unknown count of 9 instead of 0. *)
Definition anomalous_bone_entry : list byte :=
  pack_I 4 ++ name_field 4 "Bone" ++
  pack_I 0 ++
  pack_I 0xFFFFFFFF ++
  zeros 8 ++ identity_matrix ++ zeros 4 ++
  pack_I 0 ++
  pack_I 0 ++
  pack_I 0 ++ pack_I 9 ++                  (* unknown pools *)
  pack_I 0 ++
  pack_I 0 ++
  pack_I 0 ++
  pack_I 0 ++ zeros 4 ++
  pack_I 0 ++
  pack_I 0 ++
  pack_I 0 ++
  zeros 4 ++ pack_I 0 ++
  pack_I 0 ++ zeros 24.

(** A Format A face record for a version after 0x5001: indices (1, 2, 0),
    three (u, v, w) records, material index, smoothing group 3. *)
Definition face_record : list byte :=
  pack_I 1 ++ pack_I 2 ++ pack_I 0 ++
  (pack_f bits_0_25 ++ pack_f bits_0_25 ++ pack_f bits_1_0) ++
  (pack_f bits_0_5 ++ pack_f bits_0_0 ++ pack_f bits_1_0) ++
  (pack_f bits_0_6 ++ pack_f bits_1_0 ++ pack_f bits_1_0) ++
  pack_I 0 ++
  pack_I 3.

(** A Format A mesh of version 0x5004 named "Bip01 L Thigh": three
    vertices and the face above. *)
Definition thigh_mesh : list byte :=
  name_field 40 "Bip01 L Thigh" ++ name_field 40 EmptyString ++
  identity_matrix ++
  (pack_f bits_1_0 ++ pack_f bits_1_0 ++ pack_f bits_1_0) ++   (* scale *)
  zeros 16 ++ zeros 16 ++ identity_matrix ++                    (* rotation, pivot *)
  pack_I 3 ++
    (zeros 4 ++ zeros 4 ++ zeros 4) ++
    (pack_f bits_1_0 ++ zeros 4 ++ zeros 4) ++
    (zeros 4 ++ pack_f bits_1_0 ++ zeros 4) ++
  pack_I 1 ++ face_record ++
  pack_I 0 ++ pack_I 0.

(** An indexed-vertex entry of 12 bytes. *)
Definition vertex_entry : list byte :=
  pack_H 10 ++ pack_H 20 ++ pack_I 30 ++ pack_H 40 ++ pack_H 50.

(** The start of a stream whose second unknown count is 9. *)
Definition anomalous_count : list byte := pack_I 9 ++ pack_I 0.

(** Headers: a wrong magic with a supported version, and the right magic
    with an unsupported version. *)
Definition bad_magic_file : list byte := pack_I 0x0107F061 ++ pack_I 0x5004 ++ zeros 8.
Definition bad_version_file : list byte := pack_I 0x0107F060 ++ pack_I 0x5009 ++ zeros 8.
Definition good_header_file : list byte := pack_I 0x0107F060 ++ pack_I 0x5011 ++ zeros 8.

(** A texture record with names of 40 bytes, and one with names of 256. *)
Definition texture_record_40 : list byte :=
  name_field 40 "wood.bmp" ++ name_field 40 "wood_alpha.bmp".
Definition texture_record_256 : list byte :=
  name_field 256 "wood.bmp" ++ name_field 256 "wood_alpha.bmp".

(** [posixpath.splitext]: the extension starts at the last dot of the last
    path component, leading dots of the component aside. *)
Fixpoint rfind (c : ascii) (i : Z) (p : list ascii) : Z :=
  match p with
  | [] => -1
  | x :: p' =>
      let r := rfind c (i + 1) p' in
      if (0 <=? r) then r else if Ascii.eqb x c then i else -1
  end.

Definition posix_splitext (p : string) : string * string :=
  let chars := list_ascii_of_string p in
  let sepIndex := rfind "/" 0 chars in
  let dotIndex := rfind "." 0 chars in
  let stem := take (Z.to_nat (dotIndex - (sepIndex + 1))) (drop (Z.to_nat (sepIndex + 1)) chars) in
  if (sepIndex <? dotIndex) && existsb (fun x => negb (Ascii.eqb x ".")) stem
  then (string_of_list_ascii (take (Z.to_nat dotIndex) chars),
        string_of_list_ascii (drop (Z.to_nat dotIndex) chars))
  else (p, EmptyString).

(** A loader that does nothing, for runs of the driver on files it
    rejects before calling [load_elu]. *)
Definition idle_load_elu (version : Z) : M unit := ret tt.

End Samples.

(** ** Notions used in the statements *)

(** Every recorded weight is positive and no bucket lists a vertex twice. *)
Definition positive_unique (m : gmap Z (gmap pyfloat (list Z))) : Prop :=
  forall bone_index bucket bone_weight members,
    m !! bone_index = Some bucket ->
    bucket !! bone_weight = Some members ->
    fgt bone_weight f_0_0 = true /\ NoDup members.

(** Vertex [i] is listed under [key] at weight [w]. *)
Definition recorded `{Countable K} (m : gmap K (gmap pyfloat (list Z)))
    (key : K) (w : pyfloat) (i : Z) : Prop :=
  exists bucket members,
    m !! key = Some bucket /\ bucket !! w = Some members /\ i ∈ members.

Section NameNotions.
Local Open Scope string_scope.

(** A format without padded fields never fails and does not look at the
    keys it does not name. *)
Definition plain_without (key : string) (seg : fseg) : Prop :=
  match seg with
  | FText _ => True
  | FField k => k <> key
  | FPad _ _ _ => False
  end.

(** The pieces [blend] puts before the index: name or root, nub, side. *)
Definition base_format (m : groups) : list fseg :=
  ((match m !! "name" with
    | Some _ => [FText "ZBip_"; FField "name"]
    | None => [FText "ZBip_Root"]
    end)
   ++ (match m !! "nub" with
       | Some _ => [FText "_"; FField "nub"]
       | None => []
       end)
   ++ (match m !! "side" with
       | Some _ => [FText "."; FField "side"]
       | None => []
       end))%list.

(** What [blend] appends for a captured index of value [n]. *)
Definition index_suffix (index : string) (n : Z) : string :=
  if (1 <? String.length index)%nat && (n <? 10)%Z
  then ".1" ++ pad_left "0" 3 index
  else if (0 <? n)%Z
  then "." ++ pad_left "0" 3 index
  else EmptyString.





End NameNotions.

(** A corner of the cube of side 1 centred at the origin, and an edge of
    it between two of the placeholder's vertices. *)
Definition is_half (x : pyfloat) : bool :=
  bool_decide (x = f_0_5) || bool_decide (x = f_m0_5).

Definition cube_corner (v : Bpy.vec3) : bool :=
  let '(x, y, z) := v in is_half x && is_half y && is_half z.

Definition cube_edge (e : Z * Z) : bool :=
  match MeshB.placeholder_vertices !! Z.to_nat (fst e),
        MeshB.placeholder_vertices !! Z.to_nat (snd e) with
  | Some (x, y, z), Some (x', y', z') =>
      (0 <=? fst e) && (0 <=? snd e) &&
      Nat.eqb 1 (length (filter (fun b : bool => b = false)
                          [bool_decide (x = x'); bool_decide (y = y'); bool_decide (z = z')]))
  | _, _ => false
  end.


(** What a caller can see of a run of the driver: status and log. *)
Definition outcome (r : result Driver.status) : option (Driver.status * list log_record) :=
  match r with
  | Ok st w => Some (st, logged w)
  | Raise _ => None
  end.

(** * Properties *)

Section MonadFacts.
Lemma bind_Ok {A B} (c : M A) (k : A -> M B) w a w' :
  c w = Ok a w' -> bind c k w = k a w'.
Proof. intros H. unfold bind. rewrite H. reflexivity. Qed.

Lemma read_enough n w :
  0 <= n -> (Z.to_nat n <= length (remaining w))%nat ->
  read n w = Ok (take (Z.to_nat n) (remaining w)) (advance n w).
Proof.
  intros Hn Hlen. unfold read. cbv zeta.
  rewrite length_take_le by exact Hlen. rewrite Z2Nat.id by exact Hn. reflexivity.
Qed.

Lemma field_take off width n bs :
  (off + width <= n)%nat -> field off width (take n bs) = field off width bs.
Proof.
  intros H. unfold field. f_equal.
  replace n with (off + (n - off))%nat by lia.
  rewrite <- take_drop_commute, take_take. f_equal. lia.
Qed.

Lemma read_unpack_enough {A} n (unpack : list byte -> option A) w a :
  0 <= n -> (Z.to_nat n <= length (remaining w))%nat ->
  unpack (take (Z.to_nat n) (remaining w)) = Some a ->
  read_unpack n unpack w = Ok a (advance n w).
Proof.
  intros Hn Hlen Hu. unfold read_unpack.
  rewrite (bind_Ok _ _ _ _ _ (read_enough n w Hn Hlen)).
  rewrite Hu. reflexivity.
Qed.

Lemma remaining_advance n w :
  0 <= n -> 0 <= elu_pos w -> remaining (advance n w) = drop (Z.to_nat n) (remaining w).
Proof.
  intros. unfold remaining, advance. simpl. rewrite drop_drop. f_equal. lia.
Qed.
End MonadFacts.

Import ELU_VERSIONS.

Lemma unpack_5H_take bs :
  (10 <= length bs)%nat ->
  unpack_5H (take 10 bs) =
  Some (u16_at 0 bs, u16_at 2 bs, u16_at 4 bs, u16_at 6 bs, u16_at 8 bs).
Proof.
  intros H. unfold unpack_5H, sized. rewrite length_take_le by lia. simpl.
  unfold u16_at. rewrite !field_take by lia. reflexivity.
Qed.

Lemma unpack_2HI2H_take bs :
  (12 <= length bs)%nat ->
  unpack_2HI2H (take 12 bs) =
  Some (u16_at 0 bs, u16_at 2 bs, u32_at 4 bs, u16_at 8 bs, u16_at 10 bs).
Proof.
  intros H. unfold unpack_2HI2H, sized. rewrite length_take_le by lia. simpl.
  unfold u16_at, u32_at. rewrite !field_take by lia. reflexivity.
Qed.

(** C6.  An entry of the indexed-vertex table is read as five 16-bit
    fields (10 bytes) in the order position, normal, texcoord, unknown0,
    unknown1 before 0x500E; as 16, 16, 32, 16, 16 bits (12 bytes) in the
    order position, normal, unknown1, unknown0, texcoord at 0x500E; and as
    16, 16, 32, 16, 16 bits (12 bytes) in the order position, normal,
    texcoord, unknown0, unknown1 after 0x500E.  The entry appended is always
    (position, normal, texcoord, unknown0, unknown1). *)
Theorem indexed_vertex_layout (version i : Z) (acc : list MeshB.vertex_index) (w : world) :
  let bs := remaining w in
  (version < x500E -> (10 <= length bs)%nat ->
   MeshB.read_vertex_index version i acc w =
   Ok (acc ++ [(u16_at 0 bs, u16_at 2 bs, u16_at 4 bs, u16_at 6 bs, u16_at 8 bs)])
      (advance 10 w))
  /\ (version = x500E -> (12 <= length bs)%nat ->
   MeshB.read_vertex_index version i acc w =
   Ok (acc ++ [(u16_at 0 bs, u16_at 2 bs, u16_at 10 bs, u16_at 8 bs, u32_at 4 bs)])
      (advance 12 w))
  /\ (x500E < version -> (12 <= length bs)%nat ->
   MeshB.read_vertex_index version i acc w =
   Ok (acc ++ [(u16_at 0 bs, u16_at 2 bs, u32_at 4 bs, u16_at 8 bs, u16_at 10 bs)])
      (advance 12 w)).
Proof.
  intros bs. unfold MeshB.read_vertex_index. repeat split.
  - intros Hv Hlen.
    destruct (Z.ltb_spec version x500E) as [_|?]; [|lia].
    rewrite (bind_Ok _ _ _ _ _
      (read_unpack_enough 10 unpack_5H w _ ltac:(lia) ltac:(exact Hlen) (unpack_5H_take _ Hlen))).
    reflexivity.
  - intros -> Hlen. simpl.
    rewrite (bind_Ok _ _ _ _ _
      (read_unpack_enough 12 unpack_2HI2H w _ ltac:(lia) ltac:(exact Hlen) (unpack_2HI2H_take _ Hlen))).
    reflexivity.
  - intros Hv Hlen.
    destruct (Z.ltb_spec version x500E) as [?|_]; [lia|].
    destruct (Z.eqb_spec version x500E) as [?|_]; [lia|].
    rewrite (bind_Ok _ _ _ _ _
      (read_unpack_enough 12 unpack_2HI2H w _ ltac:(lia) ltac:(exact Hlen) (unpack_2HI2H_take _ Hlen))).
    reflexivity.
Qed.

Lemma field_drop off width k bs :
  field off width (drop k bs) = field (k + off) width bs.
Proof. unfold field. rewrite drop_drop. reflexivity. Qed.

Lemma advance_advance a b w : advance a (advance b w) = advance (b + a) w.
Proof. unfold advance. simpl. f_equal. lia. Qed.

Lemma unpack_I_take bs :
  (4 <= length bs)%nat -> unpack_I (take 4 bs) = Some (u32_at 0 bs).
Proof.
  intros H. unfold unpack_I, sized. rewrite length_take_le by lia. simpl.
  unfold u32_at. rewrite field_take by lia. reflexivity.
Qed.

Lemma unpack_3I_take bs :
  (12 <= length bs)%nat ->
  unpack_3I (take 12 bs) = Some (u32_at 0 bs, u32_at 4 bs, u32_at 8 bs).
Proof.
  intros H. unfold unpack_3I, sized. rewrite length_take_le by lia. simpl.
  unfold u32_at. rewrite !field_take by lia. reflexivity.
Qed.

Lemma unpack_3f_take bs :
  (12 <= length bs)%nat ->
  unpack_3f (take 12 bs) = Some (f32_at 0 bs, f32_at 4 bs, f32_at 8 bs).
Proof.
  intros H. unfold unpack_3f, sized. rewrite length_take_le by lia. simpl.
  unfold f32_at. rewrite !field_take by lia. reflexivity.
Qed.

(** Reading a field [k] bytes after the offset of [w]. *)
Lemma read_unpack_at {A} (k : nat) n (unpack : list byte -> option A) w a :
  0 <= elu_pos w -> 0 <= n ->
  (k + Z.to_nat n <= length (remaining w))%nat ->
  unpack (take (Z.to_nat n) (drop k (remaining w))) = Some a ->
  read_unpack n unpack (advance (Z.of_nat k) w) = Ok a (advance (Z.of_nat k + n) w).
Proof.
  intros Hp Hn Hlen Hu.
  rewrite <- advance_advance.
  apply read_unpack_enough; [lia| |];
    rewrite remaining_advance by lia; rewrite Nat2Z.id.
  - rewrite length_drop. lia.
  - exact Hu.
Qed.

(** C4.  After 0x500E, a second unknown count other than 0 is replaced by
    0: the offset ends 4 bytes further (just after the count, not after
    count x 12 more bytes), a warning is logged, nothing is raised, and
    whatever follows runs from that state. *)
Theorem second_unknown_recovery (version : Z) (w : world) :
  x500E < version ->
  (4 <= length (remaining w))%nat ->
  u32_at 0 (remaining w) <> 0 ->
  let w' :=
    add_log {| lvl := DEBUG; fmt := "looooop %x"; args := [LInt (elu_pos w + 4)] |}
      (add_log {| lvl := WARNING; fmt := "Oh no! %x"; args := [LInt (elu_pos w + 4)] |}
         (advance 4 w)) in
  MeshB.skip_second_unknown version w = Ok tt w'
  /\ elu_pos w' = elu_pos w + 4
  /\ forall (A : Type) (k : M A), (MeshB.skip_second_unknown version ;; k) w = k w'.
Proof.
  intros Hv Hlen Hcount w'.
  assert (Hrun : MeshB.skip_second_unknown version w = Ok tt w').
  { unfold MeshB.skip_second_unknown.
    rewrite (bind_Ok _ _ _ _ _
      (read_unpack_enough 4 unpack_I w _ ltac:(lia) ltac:(exact Hlen) (unpack_I_take _ Hlen))).
    destruct (Z.gtb_spec version x500E) as [_|?]; [|lia].
    destruct (Z.eqb_spec (u32_at 0 (remaining w)) 0) as [?|_]; [contradiction|].
    reflexivity. }
  split; [exact Hrun|]. split; [reflexivity|].
  intros A k. unfold bind. rewrite Hrun. reflexivity.
Qed.

(** C3.  A Format A face record: when the third stored index is 0 the
    face is kept as (v3, v1, v2) and its three UV pairs in the order
    (third, first, second); otherwise both are kept in stored order.  Each
    UV pair is (u, 1.0 - v) and the third float of the record is not
    kept. *)
Theorem format_a_face_rotation (version i : Z) (fv : MeshA.face_vars) (w : world) :
  let bs := remaining w in
  let v1 := u32_at 0 bs in
  let v2 := u32_at 4 bs in
  let v3 := u32_at 8 bs in
  let uv (k : nat) := (f32_at (12 + 12 * k) bs, fsub f_1_0 (f32_at (16 + 12 * k) bs)) in
  let face := if v3 =? 0 then (v3, v1, v2) else (v1, v2, v3) in
  let uvs := if v3 =? 0 then (uv 2%nat, uv 0%nat, uv 1%nat) else (uv 0%nat, uv 1%nat, uv 2%nat) in
  0 <= elu_pos w ->
  (version <= x5001 -> (48 <= length bs)%nat ->
   MeshA.read_face version i fv w =
   Ok {| MeshA.faces := MeshA.faces fv ++ [face];
         MeshA.uv_faces := MeshA.uv_faces fv ++ [uvs];
         MeshA.smooth_groups := MeshA.smooth_groups fv |}
      (advance 52 w))
  /\ (x5001 < version -> (56 <= length bs)%nat ->
      forall members,
        MeshA.smooth_groups fv !! Z.to_nat (u32_at 52 bs) = Some members ->
        MeshA.read_face version i fv w =
        Ok {| MeshA.faces := MeshA.faces fv ++ [face];
              MeshA.uv_faces := MeshA.uv_faces fv ++ [uvs];
              MeshA.smooth_groups :=
                <[Z.to_nat (u32_at 52 bs) := members ++ [v1; v2; v3]]>
                  (MeshA.smooth_groups fv) |}
           (advance 56 w)).
Proof.
  intros bs v1 v2 v3 uv face uvs Hpos.
  assert (Huv : forall (k : nat) (acc : list Bpy.uv) (j o : Z),
             o = Z.of_nat (12 + 12 * k) ->
             (12 + 12 * k + 12 <= length bs)%nat ->
             MeshA.read_face_uv j acc (advance o w) =
             Ok (acc ++ [uv k]) (advance (o + 12) w)).
  { intros k acc j o -> Hk. unfold MeshA.read_face_uv.
    assert (Hr : read_unpack 12 unpack_3f (advance (Z.of_nat (12 + 12 * k)) w) =
                 Ok (f32_at (12 + 12 * k) bs, f32_at (16 + 12 * k) bs, f32_at (20 + 12 * k) bs)
                    (advance (Z.of_nat (12 + 12 * k) + 12) w)).
    { apply read_unpack_at; [exact Hpos|lia| |].
      - fold bs. change (Z.to_nat 12) with 12%nat. lia.
      - fold bs. change (Z.to_nat 12) with 12%nat.
        rewrite unpack_3f_take by (rewrite length_drop; lia).
        unfold f32_at. rewrite !field_drop. rewrite Nat.add_0_r.
        replace (12 + 12 * k + 4)%nat with (16 + 12 * k)%nat by lia.
        replace (12 + 12 * k + 8)%nat with (20 + 12 * k)%nat by lia.
        reflexivity. }
    rewrite (bind_Ok _ _ _ _ _ Hr). reflexivity. }
  assert (Hprefix : (48 <= length bs)%nat ->
     forall A (k : _ -> M A),
       (face_uvs <- for_range FACE_VERTEX_COUNT MeshA.read_face_uv [] ;; k face_uvs)
         (advance 12 w) = k [uv 0%nat; uv 1%nat; uv 2%nat] (advance 48 w)).
  { intros Hlen A k.
    unfold for_range, FACE_VERTEX_COUNT.
    change (Z.to_nat 3) with 3%nat. cbn [for_from].
    unfold bind at 1. unfold bind at 1.
    assert (Hx0 : (12 + 12 * 0 + 12 <= length bs)%nat) by (clear - Hlen; lia).
    assert (Hx1 : (12 + 12 * 1 + 12 <= length bs)%nat) by (clear - Hlen; lia).
    assert (Hx2 : (12 + 12 * 2 + 12 <= length bs)%nat) by (clear - Hlen; lia).
    rewrite (Huv 0%nat _ _ 12 eq_refl Hx0).
    unfold bind at 1. change (12 + 12) with 24.
    rewrite (Huv 1%nat _ _ 24 eq_refl Hx1).
    unfold bind at 1. change (24 + 12) with 36.
    rewrite (Huv 2%nat _ _ 36 eq_refl Hx2).
    reflexivity. }
  assert (Hhead : (48 <= length bs)%nat ->
            read_unpack 12 unpack_3I w = Ok (v1, v2, v3) (advance 12 w)).
  { intros Hlen. apply read_unpack_enough; [lia| |].
    - change (Z.to_nat 12) with 12%nat. fold bs. clear - Hlen. lia.
    - change (Z.to_nat 12) with 12%nat. fold bs.
      apply unpack_3I_take. clear - Hlen. lia. }
  split.
  - intros Hv Hlen. unfold MeshA.read_face.
    rewrite (bind_Ok _ _ _ _ _ (Hhead Hlen)).
    cbv beta iota zeta.
    rewrite (Hprefix Hlen).
    destruct (Z.gtb_spec version x5001) as [?|_]; [lia|].
    subst face uvs.
    destruct (v3 =? 0); unfold MeshA.uv_triple, bind, lift, ret, seek_cur;
      cbv beta iota; rewrite advance_advance; reflexivity.
  - intros Hv Hlen members Hm. unfold MeshA.read_face.
    assert (Hlen' : (48 <= length bs)%nat) by (clear - Hlen; lia).
    rewrite (bind_Ok _ _ _ _ _ (Hhead Hlen')).
    cbv beta iota zeta.
    rewrite (Hprefix Hlen').
    destruct (Z.gtb_spec version x5001) as [_|?]; [|lia].
    assert (Hsg : read_unpack 4 unpack_I (advance 52 w) = Ok (u32_at 52 bs) (advance 56 w)).
    { apply (read_unpack_at 52 4 unpack_I w (u32_at 52 bs) Hpos); [lia| |].
      - change (Z.to_nat 4) with 4%nat. fold bs. clear - Hlen. lia.
      - change (Z.to_nat 4) with 4%nat. fold bs.
        rewrite unpack_I_take by (rewrite length_drop; clear - Hlen; lia).
        unfold u32_at. rewrite field_drop. reflexivity. }
    subst face uvs.
    destruct (v3 =? 0); unfold MeshA.uv_triple, bind, lift, ret, seek_cur;
      cbv beta iota; rewrite advance_advance; change (48 + 4) with 52;
      rewrite Hsg, Hm; reflexivity.
Qed.

Lemma nested_update `{Countable K} (f : list Z -> list Z) (k : K) (w : pyfloat)
    (m : gmap K (gmap pyfloat (list Z))) :
  alter (alter f w) k (alter (setdefault w []) k (setdefault k ∅ m)) =
  let bucket := default ∅ (m !! k) in
  <[k := <[w := f (default [] (bucket !! w))]> bucket]> m.
Proof.
  cbv zeta. unfold setdefault.
  apply map_eq. intros b.
  destruct (decide (k = b)) as [<-|Hne].
  - rewrite lookup_alter_eq, lookup_insert_eq.
    destruct (m !! k) as [bucket|] eqn:Hb; simpl.
    + rewrite lookup_alter_eq, Hb. simpl. f_equal.
      apply map_eq. intros x.
      destruct (decide (w = x)) as [<-|Hx].
      * rewrite lookup_alter_eq, lookup_insert_eq.
        destruct (bucket !! w) as [members|] eqn:Hw; simpl.
        -- rewrite Hw. reflexivity.
        -- rewrite lookup_insert_eq. reflexivity.
      * rewrite lookup_alter_ne, lookup_insert_ne by done.
        destruct (bucket !! w); [done|]. by rewrite lookup_insert_ne.
    + rewrite lookup_alter_eq, lookup_insert_eq. simpl. f_equal.
      apply map_eq. intros x. rewrite lookup_empty.
      destruct (decide (w = x)) as [<-|Hx].
      * rewrite lookup_alter_eq, !lookup_insert_eq. reflexivity.
      * rewrite lookup_alter_ne, !lookup_insert_ne, lookup_empty by done. done.
  - rewrite !lookup_alter_ne, lookup_insert_ne by done.
    destruct (m !! k); [done|]. by rewrite lookup_insert_ne.
Qed.

Lemma add_influence_insert bone_index bone_weight i (m : gmap Z (gmap pyfloat (list Z))) :
  fgt bone_weight f_0_0 = true ->
  MeshB.add_influence bone_index bone_weight i m =
  let bucket := default ∅ (m !! bone_index) in
  <[bone_index :=
      <[bone_weight := MeshB.note_member i (default [] (bucket !! bone_weight))]> bucket]> m.
Proof.
  intros Hgt. unfold MeshB.add_influence. rewrite Hgt. cbv zeta.
  apply (nested_update (MeshB.note_member i)).
Qed.

(** *** Loops: an invariant of the body is an invariant of the loop *)

Lemma for_from_invariant {A} (P : A -> Prop) (body : Z -> A -> M A) n :
  (forall j a w a' w', P a -> body j a w = Ok a' w' -> P a') ->
  forall i acc w acc' w',
    P acc -> for_from n i body acc w = Ok acc' w' -> P acc'.
Proof.
  intros Hbody. induction n as [|n IH]; intros i acc w acc' w' Hacc Hrun.
  - simpl in Hrun. unfold ret in Hrun. congruence.
  - simpl in Hrun. unfold bind in Hrun.
    destruct (body i acc w) as [a1 w1|e] eqn:Hb; [|discriminate].
    eapply IH; [|exact Hrun]. eapply Hbody; eassumption.
Qed.

Lemma for_range_invariant {A} (P : A -> Prop) (body : Z -> A -> M A) n acc w acc' w' :
  (forall j a w a' w', P a -> body j a w = Ok a' w' -> P a') ->
  P acc -> for_range n body acc w = Ok acc' w' -> P acc'.
Proof. intros Hbody. unfold for_range. apply for_from_invariant. exact Hbody. Qed.

(** *** The blend-vertex table *)

Lemma note_member_NoDup i members :
  NoDup members -> NoDup (MeshB.note_member i members).
Proof.
  intros H. unfold MeshB.note_member. case_bool_decide as Hin; [exact H|].
  apply NoDup_app. split; [exact H|]. split; [|apply NoDup_singleton].
  intros x Hx Hx'. apply list_elem_of_singleton in Hx'. subst. contradiction.
Qed.

Lemma note_member_elem i members : i ∈ MeshB.note_member i members.
Proof.
  unfold MeshB.note_member. case_bool_decide as Hin; [exact Hin|].
  apply elem_of_app. right. apply list_elem_of_singleton. reflexivity.
Qed.

Lemma add_influence_positive_unique bone_index bone_weight i m :
  positive_unique m -> positive_unique (MeshB.add_influence bone_index bone_weight i m).
Proof.
  intros Hm. destruct (fgt bone_weight f_0_0) eqn:Hgt.
  - rewrite add_influence_insert by exact Hgt. cbv zeta.
    intros b bucket x members Hb Hx.
    destruct (decide (bone_index = b)) as [<-|Hne].
    + rewrite lookup_insert_eq in Hb. injection Hb as <-.
      destruct (decide (bone_weight = x)) as [<-|Hwx].
      * rewrite lookup_insert_eq in Hx. injection Hx as <-.
        split; [exact Hgt|]. apply note_member_NoDup.
        destruct (m !! bone_index) as [bk|] eqn:Hbk; simpl; [|apply NoDup_nil_2].
        destruct (bk !! bone_weight) as [ms|] eqn:Hms; simpl; [|apply NoDup_nil_2].
        exact (proj2 (Hm _ _ _ _ Hbk Hms)).
      * rewrite lookup_insert_ne in Hx by exact Hwx.
        destruct (m !! bone_index) as [bk|] eqn:Hbk; simpl in Hx.
        -- exact (Hm _ _ _ _ Hbk Hx).
        -- rewrite lookup_empty in Hx. discriminate.
    + rewrite lookup_insert_ne in Hb by exact Hne. exact (Hm _ _ _ _ Hb Hx).
  - unfold MeshB.add_influence. rewrite Hgt. exact Hm.
Qed.

Lemma read_influence_positive_unique i j m w m' w' :
  positive_unique m -> MeshB.read_influence i j m w = Ok m' w' -> positive_unique m'.
Proof.
  intros Hm Hrun. unfold MeshB.read_influence, bind, seek_cur in Hrun.
  destruct (read_unpack 6 unpack_Hf (advance 2 w)) as [[b x] w1|e]; [|discriminate].
  unfold ret in Hrun. injection Hrun as <- _.
  apply add_influence_positive_unique. exact Hm.
Qed.

Lemma read_blend_vertex_positive_unique i m w m' w' :
  positive_unique m -> MeshB.read_blend_vertex i m w = Ok m' w' -> positive_unique m'.
Proof.
  intros Hm Hrun. unfold MeshB.read_blend_vertex, bind in Hrun.
  destruct (read_unpack 4 unpack_I w) as [n w1|e]; [|discriminate].
  eapply (for_range_invariant positive_unique); [|exact Hm|exact Hrun].
  intros j a w2 a' w2' Ha. apply read_influence_positive_unique. exact Ha.
Qed.

Lemma empty_positive_unique : positive_unique ∅.
Proof. intros b bucket x members Hb. rewrite lookup_empty in Hb. discriminate. Qed.

(** C5.  In the map built from the blend-vertex table every recorded
    weight is greater than 0 and no bucket lists a blend vertex twice; an
    influence whose weight is not greater than 0 leaves the map as it is,
    one whose weight is greater than 0 is recorded; the table with weights
    0.0, 0.0 and 0.6 yields the map with the single entry of weight 0.6. *)
Theorem blend_influences_positive_unique :
  (forall version w bone_influences w',
      MeshB.read_blend_vertices version w = Ok bone_influences w' ->
      forall bone_index bucket bone_weight members,
        bone_influences !! bone_index = Some bucket ->
        bucket !! bone_weight = Some members ->
        fgt bone_weight f_0_0 = true /\ NoDup members)
  /\ (forall bone_index bone_weight i m,
        fgt bone_weight f_0_0 = false ->
        MeshB.add_influence bone_index bone_weight i m = m)
  /\ (forall bone_index bone_weight i m,
        fgt bone_weight f_0_0 = true ->
        recorded (MeshB.add_influence bone_index bone_weight i m)
          bone_index bone_weight i)
  /\ exists w',
      MeshB.read_blend_vertices ELU_VERSIONS.x5011
        (open_file Samples.blend_table Bpy.empty_data)
      = Ok {[ 7 := {[ float_of_bits32 Samples.bits_0_6 := [0] ]} ]} w'.
Proof.
  split; [|split; [|split]].
  - intros version w m w' Hrun. fold (positive_unique m).
    unfold MeshB.read_blend_vertices, bind in Hrun.
    destruct (read_unpack 4 unpack_I w) as [n w1|e]; [|discriminate].
    match type of Hrun with
    | match ?c with _ => _ end = _ => destruct c as [n' w2|e]; [|discriminate]
    end.
    unfold tell, log in Hrun.
    eapply (for_range_invariant positive_unique); [|apply empty_positive_unique|exact Hrun].
    intros j a w3 a' w3' Ha. apply read_blend_vertex_positive_unique. exact Ha.
  - intros bone_index bone_weight i m Hle. unfold MeshB.add_influence.
    rewrite Hle. reflexivity.
  - intros bone_index bone_weight i m Hgt.
    rewrite add_influence_insert by exact Hgt. cbv zeta. unfold recorded.
    eexists _, _. rewrite !lookup_insert_eq.
    split; [reflexivity|]. split; [reflexivity|]. apply note_member_elem.
  - eexists. vm_compute. reflexivity.
Qed.









(** *** The matcher and [blend] *)

Section NameFacts.
Local Open Scope string_scope.

Lemma no_match_after_start (i : nat) (s : string) :
  i <> 0%nat -> match_at ELU_BIP_REGEX i s = None.
Proof.
  intros Hi. unfold match_at, ELU_BIP_REGEX. cbn [rmatch].
  destruct (Nat.eqb_spec i 0) as [?|_]; [contradiction|reflexivity].
Qed.


Lemma append_cons c (s t : string) : String c s ++ t = String c (s ++ t).
Proof. reflexivity. Qed.

Lemma append_nil_l (t : string) : EmptyString ++ t = t.
Proof. reflexivity. Qed.

Lemma append_nil_r (s : string) : s ++ EmptyString = s.
Proof. induction s as [|c s IH]; [reflexivity|]. rewrite append_cons, IH. reflexivity. Qed.

Lemma append_assoc (s t u : string) : (s ++ t) ++ u = s ++ (t ++ u).
Proof.
  induction s as [|c s IH]; [reflexivity|].
  rewrite !append_cons, IH. reflexivity.
Qed.

Lemma format_app (a b : list fseg) (d : groups) :
  format (a ++ b)%list d =
  match format a d, format b d with
  | Some x, Some y => Some (x ++ y)
  | _, _ => None
  end.
Proof.
  induction a as [|seg a IH]; simpl.
  - destruct (format b d); reflexivity.
  - rewrite IH. destruct (format_seg d seg); [|reflexivity].
    destruct (format a d); [|reflexivity].
    destruct (format b d); [|reflexivity].
    rewrite append_assoc. reflexivity.
Qed.

Lemma format_plain key (f : list fseg) (d : groups) :
  Forall (plain_without key) f ->
  exists out, format f d = Some out /\ format f (delete key d) = Some out.
Proof.
  induction 1 as [|seg f Hseg _ IH]; simpl.
  - eauto.
  - destruct IH as (out & -> & ->).
    destruct seg as [t|k|k c n]; simpl in *; [eauto| |contradiction].
    rewrite lookup_delete_ne by congruence. eauto.
Qed.


Lemma base_format_plain (m : groups) : Forall (plain_without "index") (base_format m).
Proof.
  unfold base_format.
  destruct (m !! "name"), (m !! "nub"), (m !! "side"); simpl;
    repeat constructor; discriminate.
Qed.

Lemma blend_unfold (m : groups) :
  blend m =
  match m !! "index" with
  | Some index =>
      match int index with
      | Some n =>
          if (1 <? String.length index)%nat && (n <? 10)%Z
          then format (base_format m ++ [FText ".1"; FPad "index" "0" 3])%list m
          else if (0 <? n)%Z
          then format (base_format m ++ [FText "."; FPad "index" "0" 3])%list m
          else format (base_format m) m
      | None => None
      end
  | None => format (base_format m) m
  end.
Proof.
  unfold blend, base_format.
  destruct (m !! "name"), (m !! "nub"), (m !! "side"); simpl; reflexivity.
Qed.

Lemma base_format_delete (m : groups) :
  base_format (delete "index" m) = base_format m.
Proof. unfold base_format. rewrite !lookup_delete_ne by discriminate. reflexivity. Qed.

Lemma blend_index_suffix (m : groups) (index : string) (n : Z) :
  m !! "index" = Some index ->
  int index = Some n ->
  exists base,
    blend (delete "index" m) = Some base
    /\ blend m = Some (base ++ index_suffix index n).
Proof.
  intros Hidx Hint.
  destruct (format_plain "index" (base_format m) m (base_format_plain m))
    as (base & Hbase & Hbase').
  exists base. split.
  - rewrite blend_unfold, lookup_delete_eq, base_format_delete. exact Hbase'.
  - rewrite blend_unfold, Hidx, Hint. unfold index_suffix.
    destruct ((1 <? String.length index)%nat && (n <? 10)%Z).
    + rewrite format_app, Hbase. simpl. rewrite Hidx. rewrite append_nil_r. reflexivity.
    + destruct (0 <? n)%Z.
      * rewrite format_app, Hbase. simpl. rewrite Hidx. rewrite append_nil_r. reflexivity.
      * rewrite Hbase, append_nil_r. reflexivity.
Qed.










Lemma is_digit_range (c : ascii) : is_digit c = true -> (0 <= digit_val c <= 9)%Z.
Proof.
  unfold is_digit, digit_val. intros H.
  apply andb_true_iff in H as [H1 H2].
  apply N.leb_le in H1, H2. lia.
Qed.

Lemma is_digit_zero (c : ascii) : is_digit c = true -> digit_val c = 0%Z -> c = "0"%char.
Proof.
  unfold is_digit, digit_val. intros _ Hv.
  assert (Hn : N_of_ascii c = 48%N) by lia.
  rewrite <- (ascii_N_embedding c), Hn. reflexivity.
Qed.

Lemma index_suffix_empty (index : string) (n : Z) :
  int index = Some n -> (index_suffix index n = EmptyString <-> index = "0").
Proof.
  intros Hint. split.
  - unfold index_suffix.
    destruct index as [|c [|c' rest]]; [discriminate| |].
    + simpl in Hint. destruct (is_digit c) eqn:Hc; [|discriminate].
      injection Hint as <-. simpl.
      destruct (Z.ltb_spec 0 (10 * 0 + digit_val c)) as [_|Hle]; [discriminate|].
      intros _. f_equal. apply is_digit_zero; [exact Hc|].
      pose proof (is_digit_range c Hc). lia.
    + change (1 <? String.length (String c (String c' rest)))%nat with true.
      cbn [andb]. destruct (n <? 10)%Z eqn:Hlt; [discriminate|].
      destruct (Z.ltb_spec 0 n) as [_|Hle]; [discriminate|].
      apply Z.ltb_ge in Hlt. lia.
  - intros ->. injection Hint as <-. reflexivity.
Qed.

(** C10 (as amended).  For a match whose numeric sub-index was captured,
    [blend] returns what it returns without the index followed by: [".1"]
    and the index right-aligned in three columns of zeros when the index
    has several digits and a value below 10 (so also for ["00"]); a dot and
    the index right-aligned in three columns of zeros for every other
    positive value; nothing for the remaining case, which is exactly the
    index ["0"]. *)
Theorem blend_numeric_suffix (m : groups) (index : string) (n : Z) :
  m !! "index" = Some index ->
  int index = Some n ->
  (exists base,
      blend (delete "index" m) = Some base
      /\ blend m = Some (base ++ index_suffix index n))
  /\ index_suffix index n =
       (if (1 <? String.length index)%nat && (n <? 10)%Z
        then ".1" ++ pad_left "0" 3 index
        else if (0 <? n)%Z then "." ++ pad_left "0" 3 index
        else EmptyString)
  /\ (index_suffix index n = EmptyString <-> index = "0").
Proof.
  intros Hidx Hint. split; [|split].
  - exact (blend_index_suffix m index n Hidx Hint).
  - reflexivity.
  - exact (index_suffix_empty index n Hint).
Qed.

Lemma blend_numeric_suffix_witness :
  let m : groups := {[ "name" := "Finger"; "index" := "07" ]} in
  m !! "index" = Some "07"
  /\ int "07" = Some 7%Z
  /\ blend m = Some "ZBip_Finger.1007".
Proof.
  intros m. split; [reflexivity|]. split; [reflexivity|].
  destruct (blend_numeric_suffix m "07" 7 eq_refl eq_refl) as [(base & Hbase & Hblend) _].
  rewrite Hblend. f_equal.
  assert (Hb : Some base = Some "ZBip_Finger") by (rewrite <- Hbase; vm_compute; reflexivity).
  injection Hb as ->. reflexivity.
Defined.

(** An index group of value 0 that is not the single digit ["0"] does
    contribute a suffix: for ["Bip01 L Finger00"] the pattern captures
    ["00"] and the name comes out with [".1000"] appended. *)
Lemma zero_index_with_suffix :
  (exists e rest m,
      match_at ELU_BIP_REGEX 0 "Bip01 L Finger00" = Some (e, rest, m)
      /\ m !! "index" = Some "00")
  /\ int "00" = Some 0%Z
  /\ elu_to_blender_name "Bip01 L Finger00" = Some ("ZBip_Finger.L.1000", 1%Z)
  /\ elu_to_blender_name "Bip01 L Finger" = Some ("ZBip_Finger.L", 1%Z).
Proof.
  split; [|split; [|split]]; try (vm_compute; reflexivity).
  eexists _, _, _. split; vm_compute; reflexivity.
Qed.



Example backtracking_finds_no_match :
  elu_to_blender_name "Bip01 Finger1Nub2" = Some ("Bip01 Finger1Nub2", 0%Z)
  /\ elu_to_blender_name "Bip1 Head" = Some ("Bip1 Head", 0%Z)
  /\ elu_to_blender_name "Bip01 L Finger5Nub" = Some ("ZBip_Finger_Nub.L.005", 1%Z)
  /\ elu_to_blender_name "Bip01 R Toe0Nub" = Some ("ZBip_Toe_Nub.R", 1%Z)
  /\ elu_to_blender_name "Bip0123" = Some ("ZBip_Root", 1%Z).
Proof. repeat split; vm_compute; reflexivity. Qed.

Example thigh_name : elu_to_blender_name "Bip01 L Thigh" = Some ("ZBip_Thigh.L", 1%Z).
Proof. vm_compute. reflexivity. Qed.

End NameFacts.

(** *** Format B: placeholder or real mesh *)

Lemma placeholder_shape :
  length MeshB.placeholder_vertices = 8%nat
  /\ length MeshB.placeholder_edges = 12%nat
  /\ NoDup MeshB.placeholder_vertices
  /\ NoDup MeshB.placeholder_edges
  /\ forallb cube_corner MeshB.placeholder_vertices = true
  /\ forallb cube_edge MeshB.placeholder_edges = true.
Proof.
  split; [reflexivity|]. split; [reflexivity|].
  split; [apply (bool_decide_unpack (NoDup MeshB.placeholder_vertices)); vm_compute; exact I|].
  split; [apply (bool_decide_unpack (NoDup MeshB.placeholder_edges)); vm_compute; exact I|].
  split; vm_compute; reflexivity.
Qed.




Example triangle_is_real_mesh :
  exists obj mesh w',
    MeshB.load_elu_mesh_b ELU_VERSIONS.x5011
      (open_file Samples.triangle_entry Bpy.empty_data) = Ok (Some obj) w'
    /\ Bpy.obj_data obj = Some mesh
    /\ Bpy.is_bip mesh = false
    /\ Bpy.mesh_faces mesh = [[0; 1; 2]]
    /\ length (Bpy.mesh_vertices mesh) = 3%nat.
Proof.
  eexists _, _, _. split; [vm_compute; reflexivity|].
  repeat split.
Qed.

(** *** The driver *)

Lemma unpack_2I_take bs :
  (8 <= length bs)%nat -> unpack_2I (take 8 bs) = Some (u32_at 0 bs, u32_at 4 bs).
Proof.
  intros H. unfold unpack_2I, sized. rewrite length_take_le by lia. simpl.
  unfold u32_at. rewrite !field_take by lia. reflexivity.
Qed.

Lemma versions_enumerated :
  ELU_VERSIONS.values =
  [0x11; 0x5001; 0x5002; 0x5003; 0x5004; 0x5005; 0x5006; 0x5007;
   0x5008; 0x500A; 0x500B; 0x500C; 0x500E; 0x500F; 0x5010; 0x5011]
  /\ length ELU_VERSIONS.values = 16%nat
  /\ NoDup ELU_VERSIONS.values.
Proof.
  split; [reflexivity|]. split; [reflexivity|].
  apply (bool_decide_unpack (NoDup ELU_VERSIONS.values)). vm_compute. exact I.
Qed.

(** C1 (as amended).  With the 8 header bytes present, [load_from_path]
    goes on to [load_elu] exactly when the magic is 0x0107F060 and the
    version is one of the 16 tags; in every other case it returns CANCELLED
    after logging "File not supported", the same for a wrong magic and for
    an unsupported version, with the offset left at 8. *)
Theorem header_validation (load_elu : Z -> M unit) (path : string)
    (contents : list byte) (b : Bpy.data) :
  (8 <= length contents)%nat ->
  let magic := u32_at 0 contents in
  let version := u32_at 4 contents in
  let w8 :=
    advance 8
      (add_log {| lvl := INFO; fmt := "Opening file: %s"; args := [LStr path] |}
         (open_file contents b)) in
  (magic = ELU_MAGIC -> version ∈ ELU_VERSIONS.values ->
   Driver.load_from_path load_elu path (open_file contents b) =
   (load_elu version ;; ret Driver.FINISHED)
     (add_log {| lvl := DEBUG; fmt := "Version: %x"; args := [LInt version] |} w8))
  /\ (magic <> ELU_MAGIC \/ version ∉ ELU_VERSIONS.values ->
      Driver.load_from_path load_elu path (open_file contents b) =
      Ok Driver.CANCELLED
         (add_log {| lvl := ERROR; fmt := "File not supported"; args := [] |} w8)
      /\ elu_pos
           (add_log {| lvl := ERROR; fmt := "File not supported"; args := [] |} w8) = 8)
  /\ length ELU_VERSIONS.values = 16%nat
  /\ NoDup ELU_VERSIONS.values.
Proof.
  intros Hlen magic version w8.
  assert (Hhead : forall A (k : Z * Z -> M A),
             (mv <- read_unpack 8 unpack_2I ;; k mv)
               (add_log {| lvl := INFO; fmt := "Opening file: %s"; args := [LStr path] |}
                  (open_file contents b))
             = k (magic, version) w8).
  { intros A k. apply bind_Ok. apply read_unpack_enough; [lia|exact Hlen|].
    apply (unpack_2I_take contents Hlen). }
  split; [|split].
  - intros Hmagic Hversion.
    unfold Driver.load_from_path. unfold bind at 1. unfold log at 1.
    rewrite Hhead. cbv beta iota.
    destruct (Z.eqb_spec magic ELU_MAGIC) as [_|?]; [|contradiction].
    unfold ELU_VERSIONS.contains. rewrite bool_decide_eq_true_2 by exact Hversion.
    reflexivity.
  - intros Hbad.
    unfold Driver.load_from_path. unfold bind at 1. unfold log at 1.
    rewrite Hhead. cbv beta iota.
    assert (Hcond : negb (magic =? ELU_MAGIC) || negb (ELU_VERSIONS.contains version) = true).
    { destruct Hbad as [Hm|Hv].
      - destruct (Z.eqb_spec magic ELU_MAGIC) as [?|_]; [contradiction|reflexivity].
      - unfold ELU_VERSIONS.contains. rewrite bool_decide_eq_false_2 by exact Hv.
        apply orb_true_r. }
    rewrite Hcond. split; reflexivity.
  - exact (proj2 versions_enumerated).
Qed.

Lemma header_validation_witness :
  (8 <= length Samples.bad_version_file)%nat
  /\ (u32_at 4 Samples.bad_version_file ∉ ELU_VERSIONS.values)
  /\ exists w,
       Driver.load_from_path Samples.idle_load_elu "a.elu"
         (open_file Samples.bad_version_file Bpy.empty_data)
       = Ok Driver.CANCELLED w
       /\ elu_pos w = 8.
Proof.
  assert (Hlen : (8 <= length Samples.bad_version_file)%nat) by (vm_compute; lia).
  assert (Hv : u32_at 4 Samples.bad_version_file ∉ ELU_VERSIONS.values).
  { apply (bool_decide_unpack (u32_at 4 Samples.bad_version_file ∉ ELU_VERSIONS.values)).
    vm_compute. exact I. }
  split; [exact Hlen|]. split; [exact Hv|].
  destruct (header_validation Samples.idle_load_elu "a.elu" Samples.bad_version_file
              Bpy.empty_data Hlen) as (_ & Hreject & _).
  destruct (Hreject (or_intror Hv)) as [Hrun Hpos].
  eexists. split; [exact Hrun|exact Hpos].
Defined.

(** A wrong magic and an unsupported version are reported in the same
    way: the two runs return the same status and log the same line, so no
    caller can tell [BadMagic] from [UnsupportedVersion]. *)
Lemma rejections_indistinguishable :
  u32_at 0 Samples.bad_magic_file <> ELU_MAGIC
  /\ (u32_at 4 Samples.bad_magic_file ∈ ELU_VERSIONS.values)
  /\ u32_at 0 Samples.bad_version_file = ELU_MAGIC
  /\ (u32_at 4 Samples.bad_version_file ∉ ELU_VERSIONS.values)
  /\ outcome (Driver.load_from_path Samples.idle_load_elu "a.elu"
                (open_file Samples.bad_magic_file Bpy.empty_data))
     = outcome (Driver.load_from_path Samples.idle_load_elu "a.elu"
                  (open_file Samples.bad_version_file Bpy.empty_data))
  /\ outcome (Driver.load_from_path Samples.idle_load_elu "a.elu"
                (open_file Samples.bad_magic_file Bpy.empty_data))
     = Some (Driver.CANCELLED,
             [ {| lvl := INFO; fmt := "Opening file: %s"; args := [LStr "a.elu"] |};
               {| lvl := ERROR; fmt := "File not supported"; args := [] |} ]).
Proof.
  split; [vm_compute; discriminate|].
  split; [apply (bool_decide_unpack (u32_at 4 Samples.bad_magic_file ∈ ELU_VERSIONS.values));
          vm_compute; exact I|].
  split; [vm_compute; reflexivity|].
  split; [apply (bool_decide_unpack (u32_at 4 Samples.bad_version_file ∉ ELU_VERSIONS.values));
          vm_compute; exact I|].
  split; vm_compute; reflexivity.
Qed.

(** *** Texture records *)

Lemma decode_name_Ok raw s w :
  decode_ascii raw = Some s -> decode_name raw w = Ok (rstrip_nul s) w.
Proof. intros H. unfold decode_name, bind, lift. rewrite H. reflexivity. Qed.

Lemma read_two_names (n : Z) (w : world) :
  0 <= n -> 0 <= elu_pos w ->
  (2 * Z.to_nat n <= length (remaining w))%nat ->
  forall A (k : list byte * list byte -> M A),
    (name0 <- read n ;; name1 <- read n ;; k (name0, name1)) w =
    k (take (Z.to_nat n) (remaining w),
       take (Z.to_nat n) (drop (Z.to_nat n) (remaining w)))
      (advance (2 * n) w).
Proof.
  intros Hn Hpos Hlen A k.
  rewrite (bind_Ok _ _ _ _ _ (read_enough n w Hn ltac:(lia))).
  assert (H2 : read n (advance n w) =
               Ok (take (Z.to_nat n) (drop (Z.to_nat n) (remaining w)))
                  (advance (2 * n) w)).
  { rewrite read_enough; [|exact Hn|].
    - rewrite remaining_advance by lia. rewrite advance_advance.
      replace (n + n) with (2 * n) by lia. reflexivity.
    - rewrite remaining_advance by lia. rewrite length_drop. lia. }
  rewrite (bind_Ok _ _ _ _ _ H2). reflexivity.
Qed.

(** C7 (as amended).  Each of the two names of a texture record takes 40
    bytes before version 0x5006 and 256 bytes from 0x5006 on; both are
    consumed and decoded, and the texture is named after the first one
    alone. *)
Theorem texture_name_width (splitext : string -> string * string)
    (version : Z) (w : world) (s0 s1 : string) :
  let n := Z.to_nat (Materials.texture_name_length version) in
  let bs := remaining w in
  0 <= elu_pos w ->
  (2 * n <= length bs)%nat ->
  decode_ascii (take n bs) = Some s0 ->
  decode_ascii (take n (drop n bs)) = Some s1 ->
  Materials.texture_name_length version
    = (if version <? ELU_VERSIONS.x5006 then 40 else 256)
  /\ exists w',
       Materials.load_elu_texture splitext version w
         = Ok (fst (splitext (rstrip_nul s0))) w'
       /\ elu_pos w' = elu_pos w + 2 * Materials.texture_name_length version
       /\ Bpy.textures (bpy w')
          = {[ fst (splitext (rstrip_nul s0)) ]} ∪ Bpy.textures (bpy w).
Proof.
  intros n bs Hpos Hlen H0 H1. split; [reflexivity|].
  assert (Hrun : forall len : Z,
            len = Materials.texture_name_length version -> 0 <= len ->
            exists w',
              ((names <- (name0 <- read len ;; name1 <- read len ;; ret (name0, name1)) ;;
                let '(name0, name1) := names in
                image_name0 <- decode_name name0 ;;
                image_name1 <- decode_name name1 ;;
                let '(texture_name0, texture_ext0) := splitext image_name0 in
                let '(texture_name1, texture_ext1) := splitext image_name1 in
                b <- get_bpy ;;
                if bool_decide (texture_name0 ∈ Bpy.textures b) then ret texture_name0
                else
                  put_bpy {| Bpy.meshes := Bpy.meshes b;
                             Bpy.objects := Bpy.objects b;
                             Bpy.materials := Bpy.materials b;
                             Bpy.textures := {[ texture_name0 ]} ∪ Bpy.textures b;
                             Bpy.scene_objects := Bpy.scene_objects b |} ;;
                  ret texture_name0) w)
              = Ok (fst (splitext (rstrip_nul s0))) w'
              /\ elu_pos w' = elu_pos w + 2 * len
              /\ Bpy.textures (bpy w')
                 = {[ fst (splitext (rstrip_nul s0)) ]} ∪ Bpy.textures (bpy w)).
  { intros len -> Hge. fold n in Hlen, H0, H1.
    unfold bind at 1.
    rewrite (read_two_names _ w Hge Hpos Hlen). unfold ret at 1.
    fold n bs. cbv beta iota.
    rewrite (bind_Ok _ _ _ _ _ (decode_name_Ok _ _ _ H0)).
    rewrite (bind_Ok _ _ _ _ _ (decode_name_Ok _ _ _ H1)).
    destruct (splitext (rstrip_nul s0)) as [texture_name0 texture_ext0].
    destruct (splitext (rstrip_nul s1)) as [texture_name1 texture_ext1].
    unfold bind, get_bpy. cbn [fst].
    case_bool_decide as Hin; unfold ret, put_bpy.
    - eexists. split; [reflexivity|]. split; [reflexivity|].
      cbn [bpy advance]. symmetry. apply subseteq_union_1_L.
      apply singleton_subseteq_l. exact Hin.
    - eexists. split; [reflexivity|]. split; reflexivity. }
  unfold Materials.load_elu_texture.
  unfold Materials.texture_name_length, NAME_LENGTH, PATH_LENGTH in *.
  destruct (version <? ELU_VERSIONS.x5006).
  - apply (Hrun 40); [reflexivity|lia].
  - apply (Hrun 256); [reflexivity|lia].
Qed.

Lemma texture_name_width_witness :
  exists w',
    (2 * Z.to_nat (Materials.texture_name_length ELU_VERSIONS.x5004)
       <= length Samples.texture_record_40)%nat
    /\ Materials.load_elu_texture Samples.posix_splitext ELU_VERSIONS.x5004
         (open_file Samples.texture_record_40 Bpy.empty_data) = Ok "wood"%string w'
    /\ elu_pos w' = 80.
Proof.
  assert (Hlen : (2 * Z.to_nat (Materials.texture_name_length ELU_VERSIONS.x5004)
                    <= length (remaining (open_file Samples.texture_record_40 Bpy.empty_data)))%nat)
    by (vm_compute; lia).
  destruct (texture_name_width Samples.posix_splitext ELU_VERSIONS.x5004
              (open_file Samples.texture_record_40 Bpy.empty_data)
              (string_of_list_ascii (list_ascii_of_string "wood.bmp"
                                       ++ replicate 32 zero))
              (string_of_list_ascii (list_ascii_of_string "wood_alpha.bmp"
                                       ++ replicate 26 zero))
              ltac:(simpl; lia) Hlen
              ltac:(vm_compute; reflexivity) ltac:(vm_compute; reflexivity))
    as (_ & w' & Hrun & Hpos & _).
  exists w'. split; [exact Hlen|]. split; [exact Hrun|exact Hpos].
Defined.

(** At version 0x5006 each name takes 256 bytes, not 40: a record with two
    256-byte names is consumed whole (512 bytes), and a record laid out
    with 40-byte names is not read as two names. *)
Lemma texture_names_at_5006 :
  ELU_VERSIONS.x5006 <= 0x5006
  /\ (exists w',
        Materials.load_elu_texture Samples.posix_splitext ELU_VERSIONS.x5006
          (open_file Samples.texture_record_256 Bpy.empty_data) = Ok "wood"%string w'
        /\ elu_pos w' = 512)
  /\ (exists name w',
        Materials.load_elu_texture Samples.posix_splitext ELU_VERSIONS.x5006
          (open_file (Samples.texture_record_40 ++ zeros 512) Bpy.empty_data)
        = Ok name w'
        /\ name <> "wood"%string
        /\ elu_pos w' <> 80).
Proof.
  split; [vm_compute; discriminate|]. split.
  - eexists. split; vm_compute; reflexivity.
  - eexists _, _. split; [vm_compute; reflexivity|]. split; vm_compute; discriminate.
Qed.

(** *** Runs on the sample buffers *)

Lemma indexed_vertex_layout_witness :
  (12 <= length Samples.vertex_entry)%nat
  /\ MeshB.read_vertex_index ELU_VERSIONS.x500C 0 []
       (open_file Samples.vertex_entry Bpy.empty_data)
     = Ok [(10, 20, 30, 0, 40)] (advance 10 (open_file Samples.vertex_entry Bpy.empty_data))
  /\ MeshB.read_vertex_index ELU_VERSIONS.x500E 0 []
       (open_file Samples.vertex_entry Bpy.empty_data)
     = Ok [(10, 20, 50, 40, 30)] (advance 12 (open_file Samples.vertex_entry Bpy.empty_data))
  /\ MeshB.read_vertex_index ELU_VERSIONS.x5011 0 []
       (open_file Samples.vertex_entry Bpy.empty_data)
     = Ok [(10, 20, 30, 40, 50)] (advance 12 (open_file Samples.vertex_entry Bpy.empty_data)).
Proof.
  assert (Hlen : (12 <= length (remaining (open_file Samples.vertex_entry Bpy.empty_data)))%nat)
    by (vm_compute; lia).
  split; [exact Hlen|]. split; [|split].
  - destruct (indexed_vertex_layout ELU_VERSIONS.x500C 0 []
                (open_file Samples.vertex_entry Bpy.empty_data)) as (H & _ & _).
    exact (H ltac:(vm_compute; reflexivity) ltac:(vm_compute; lia)).
  - destruct (indexed_vertex_layout ELU_VERSIONS.x500E 0 []
                (open_file Samples.vertex_entry Bpy.empty_data)) as (_ & H & _).
    exact (H eq_refl Hlen).
  - destruct (indexed_vertex_layout ELU_VERSIONS.x5011 0 []
                (open_file Samples.vertex_entry Bpy.empty_data)) as (_ & _ & H).
    exact (H ltac:(vm_compute; reflexivity) Hlen).
Defined.

Lemma second_unknown_recovery_witness :
  ELU_VERSIONS.x500E < ELU_VERSIONS.x5011
  /\ u32_at 0 Samples.anomalous_count = 9
  /\ exists w',
       MeshB.skip_second_unknown ELU_VERSIONS.x5011
         (open_file Samples.anomalous_count Bpy.empty_data) = Ok tt w'
       /\ elu_pos w' = 4
       /\ logged w' =
          [ {| lvl := WARNING; fmt := "Oh no! %x"; args := [LInt 4] |};
            {| lvl := DEBUG; fmt := "looooop %x"; args := [LInt 4] |} ].
Proof.
  split; [reflexivity|]. split; [reflexivity|].
  destruct (second_unknown_recovery ELU_VERSIONS.x5011
              (open_file Samples.anomalous_count Bpy.empty_data)
              ltac:(vm_compute; reflexivity) ltac:(vm_compute; lia)
              ltac:(vm_compute; discriminate)) as (Hrun & Hpos & _).
  eexists. split; [exact Hrun|]. split; [exact Hpos|reflexivity].
Defined.

Lemma format_a_face_rotation_witness :
  let fv := {| MeshA.faces := []; MeshA.uv_faces := [];
               MeshA.smooth_groups := replicate SMOOTH_GROUP_COUNT [] |} in
  let w := open_file Samples.face_record Bpy.empty_data in
  u32_at 8 (remaining w) = 0
  /\ exists fv' w',
       MeshA.read_face ELU_VERSIONS.x5004 0 fv w = Ok fv' w'
       /\ MeshA.faces fv' = [(0, 1, 2)]
       /\ MeshA.uv_faces fv' =
          [ ((float_of_bits32 Samples.bits_0_6, f_0_0),
             (float_of_bits32 Samples.bits_0_25, fsub f_1_0 (float_of_bits32 Samples.bits_0_25)),
             (f_0_5, f_1_0)) ]
       /\ elu_pos w' = 56.
Proof.
  intros fv w. split; [reflexivity|].
  destruct (format_a_face_rotation ELU_VERSIONS.x5004 0 fv w ltac:(simpl; lia)) as [_ H].
  specialize (H ltac:(vm_compute; reflexivity) ltac:(vm_compute; lia) [] eq_refl).
  eexists _, _. split; [exact H|]. split; [reflexivity|]. split; [|reflexivity].
  vm_compute. reflexivity.
Defined.

Lemma blend_influences_positive_unique_witness :
  exists bone_influences w',
    MeshB.read_blend_vertices ELU_VERSIONS.x5011
      (open_file Samples.blend_table Bpy.empty_data) = Ok bone_influences w'
    /\ forall bone_index bucket bone_weight members,
         bone_influences !! bone_index = Some bucket ->
         bucket !! bone_weight = Some members ->
         fgt bone_weight f_0_0 = true /\ NoDup members.
Proof.
  destruct (proj2 (proj2 (proj2 blend_influences_positive_unique))) as (w' & Hrun).
  eexists _, w'. split; [exact Hrun|].
  exact (proj1 blend_influences_positive_unique _ _ _ _ Hrun).
Defined.

Example thigh_mesh_decodes :
  exists d w',
    MeshA.load_elu_mesh_a_decode ELU_VERSIONS.x5004
      (open_file Samples.thigh_mesh Bpy.empty_data) = Ok d w'
    /\ MeshA.mesh_name d = "ZBip_Thigh.L"%string
    /\ MeshA.is_bip d = 1
    /\ length (MeshA.vertices d) = 3%nat
    /\ MeshA.faces (MeshA.face_data d) = [(0, 1, 2)]
    /\ elu_pos w' = Z.of_nat (length Samples.thigh_mesh).
Proof.
  eexists _, _. split; [vm_compute; reflexivity|].
  repeat split.
Qed.

Example anomalous_entry_decodes :
  exists obj w',
    MeshB.load_elu_mesh_b ELU_VERSIONS.x5011
      (open_file Samples.anomalous_bone_entry Bpy.empty_data) = Ok (Some obj) w'
    /\ elu_pos w' = Z.of_nat (length Samples.anomalous_bone_entry)
    /\ logged w' !! 4%nat
       = Some {| lvl := WARNING; fmt := "Oh no! %x"; args := [LInt 108] |}.
Proof.
  eexists _, _. split; [vm_compute; reflexivity|].
  split; reflexivity.
Qed.
